(** * Boundaries of all axes of a grid

    A shallow embedding of [pde/grids/boundaries/axes.py] (class
    [Boundaries]) together with the properties that its specification
    states about construction, normalisation of user data, copying and the
    composition of the ghost-cell setters.

    Python objects are records that carry their address ([id]) so that
    identity ([is]) and equality ([==]) can be told apart.  Code that raises
    returns a [Result]; code that allocates objects or mutates the array
    with ghost cells runs in a state monad whose state survives a raised
    exception, as it does in Python. *)

From Stdlib Require Import List String Bool Arith Lia DecimalString.
Import ListNotations.
Local Open Scope string_scope.
Local Open Scope list_scope.
Local Open Scope nat_scope.

Set Warnings "-register-all".

(** String concatenation keeps its own sign; [++] is for lists. *)
Infix "+++" := String.append (right associativity, at level 60).

Set Implicit Arguments.

(** ** Exceptions and results *)

Inductive Exception : Type :=
| BCDataError (msg : string)
| PeriodicityError (msg : string)
| AssertionError
| IndexError (msg : string)
| ForeignError (cls msg : string).

Inductive Result (A : Type) : Type :=
| Ok (a : A)
| Raise (e : Exception).

Arguments Ok {A} a.
Arguments Raise {A} e.

(** A computation over a mutable store [S]: the store is threaded through,
    also when an exception is raised. *)
Definition M (S A : Type) : Type := S -> Result A * S.

Definition ret {S A} (a : A) : M S A := fun s => (Ok a, s).

Definition raise {S A} (e : Exception) : M S A := fun s => (Raise e, s).

Definition bind {S A B} (m : M S A) (k : A -> M S B) : M S B :=
  fun s => match m s with
           | (Ok a, s') => k a s'
           | (Raise e, s') => (Raise e, s')
           end.

Definition lift {S A} (r : Result A) : M S A := fun s => (r, s).

(** The object a caller holds after a call, if any. *)
Definition returned_object {A} (r : Result A) : option A :=
  match r with
  | Ok a => Some a
  | Raise _ => None
  end.

Declare Scope py_scope.
Delimit Scope py_scope with py.
Notation "x <- m ;; k" := (bind m (fun x => k))
  (at level 61, m at next level, right associativity) : py_scope.
Notation "m ;;; k" := (bind m (fun _ => k))
  (at level 61, right associativity) : py_scope.
Local Open Scope py_scope.

(** A list comprehension [[f x for x in xs]]: left to right, the first
    exception ends it. *)
Fixpoint comprehension {S A B} (f : A -> M S B) (xs : list A) : M S (list B) :=
  match xs with
  | [] => ret []
  | x :: xs' => y <- f x ;; ys <- comprehension f xs' ;; ret (y :: ys)
  end.

(** A loop [for x in xs: f(x)] run for its effect. *)
Fixpoint for_each {S A} (f : A -> M S unit) (xs : list A) : M S unit :=
  match xs with
  | [] => ret tt
  | x :: xs' => f x ;;; for_each f xs'
  end.

(** [enumerate(xs)], counting from [start]. *)
Fixpoint enumerate_from {A} (start : nat) (xs : list A) : list (nat * A) :=
  match xs with
  | [] => []
  | x :: xs' => (start, x) :: enumerate_from (S start) xs'
  end.

Definition enumerate {A} (xs : list A) : list (nat * A) := enumerate_from 0 xs.

(** Formatting of values inside f-strings. *)
Definition str_of_nat (n : nat) : string := NilZero.string_of_uint (Nat.to_uint n).

Definition str_of_bool (b : bool) : string := if b then "True" else "False".

(** ** The collaborators: grids and boundary pairs of one axis *)

(** What [axes.py] reads from a [GridBase]: its address, [num_axes] and
    [periodic]. *)
Record Grid : Type := mkGrid {
  grid_id : nat;
  num_axes : nat;
  grid_periodic : list bool
}.

(** [a is b] on grids. *)
Definition grid_is (a b : Grid) : bool := grid_id a =? grid_id b.

(** [GridBase.__eq__] is defined outside of [axes.py]; every use of [==]
    and [!=] on grids goes through this interface ([!=] is its negation). *)
Class GridEq : Type := { grid_eq : Grid -> Grid -> bool }.

(** Grids that keep the default comparison of Python objects. *)
Definition IdentityGridEq : GridEq := {| grid_eq := grid_is |}.

(** Grids that compare by their content, whatever their address. *)
Definition StructuralGridEq : GridEq :=
  {| grid_eq := fun a b =>
       (num_axes a =? num_axes b) &&
       (if list_eq_dec bool_dec (grid_periodic a) (grid_periodic b) then true else false) |}.

(** User data describing boundary conditions: strings, dictionaries and
    sequences (lists or tuples) have the shapes [from_data] looks at; numbers
    and [None] stand for values without [__len__]. *)
Inductive Data : Type :=
| DStr (s : string)
| DDict (items : list (string * Data))
| DSeq (items : list Data)
| DNum (n : nat)
| DNone.

(** What [axes.py] reads from a [BoundaryPair]: its address, [grid], [axis]
    and [periodic]; [bp_conditions] is the description of the two sides it
    was built from and [bp_rank] the tensorial rank of their values. *)
Record BoundaryPair : Type := mkPair {
  bp_id : nat;
  bp_grid : Grid;
  bp_axis : nat;
  bp_periodic : bool;
  bp_conditions : Data;
  bp_rank : nat
}.

(** The store of Python objects: the next free address. *)
Definition Heap : Type := nat.

Definition alloc : M Heap nat := fun h => (Ok h, S h).

(** The remaining interface of [pde.grids.boundaries.axis], which is not
    part of [axes.py]. *)
Class AxisModule : Type := {
  get_boundary_axis : Grid -> nat -> Data -> nat -> M Heap BoundaryPair;
  pair_eq : BoundaryPair -> BoundaryPair -> bool;
  pair_copy : BoundaryPair -> M Heap BoundaryPair;
  pair_check_value_rank : BoundaryPair -> nat -> Result unit;
  pair_get_help : string;
  format_data : Data -> string
}.

(** ** class Boundaries(list) *)

Record Boundaries : Type := mkBoundaries {
  b_id : nat;
  b_grid : Grid;
  b_items : list BoundaryPair
}.

Section BoundariesClass.

Context {GE : GridEq} {AX : AxisModule}.

(** The loop "check consistency" of [__init__], from index [axis] on. *)
Fixpoint check_consistency (grid : Grid) (axis : nat) (boundaries : list BoundaryPair)
  : Result unit :=
  match boundaries with
  | [] => Ok tt
  | boundary :: rest =>
      if negb (grid_eq (bp_grid boundary) grid) then
        Raise (BCDataError "Boundaries are not defined on the same grid")
      else if negb (bp_axis boundary =? axis) then
        Raise (BCDataError "Boundaries need to be ordered like the respective axes")
      else
        match nth_error (grid_periodic grid) axis with
        | None => Raise (IndexError "list index out of range")
        | Some gp =>
            if negb (Bool.eqb (bp_periodic boundary) gp) then
              Raise (PeriodicityError
                ("Periodicity specified in the boundaries conditions is not "
                 +++ "compatible with the grid (" +++ str_of_bool (bp_periodic boundary)
                 +++ " != " +++ str_of_bool gp +++ " for axis " +++ str_of_nat axis +++ ")"))
            else check_consistency grid (S axis) rest
        end
  end.

(** [Boundaries.__init__(self, boundaries)]; [self] is the address of the
    object being initialised. *)
Definition Boundaries_init (self : nat) (boundaries : list BoundaryPair)
  : Result Boundaries :=
  match boundaries with
  | [] => Raise (BCDataError "List of boundaries must not be empty")
  | first :: _ =>
      let grid := bp_grid first in
      if negb (List.length boundaries =? num_axes grid) then
        Raise (BCDataError
          ("Need boundary conditions for " +++ str_of_nat (num_axes grid) +++ " axes"))
      else
        match check_consistency grid 0 boundaries with
        | Raise e => Raise e
        | Ok _ => Ok {| b_id := self; b_grid := grid; b_items := boundaries |}
        end
  end.

(** The call [Boundaries(boundaries)]: a new object is allocated and
    initialised; when [__init__] raises, the caller gets the exception and
    no object. *)
Definition Boundaries_new (boundaries : list BoundaryPair) : M Heap Boundaries :=
  self <- alloc ;; lift (Boundaries_init self boundaries).

(** [Boundaries.check_value_rank] *)
Fixpoint check_value_rank_items (items : list BoundaryPair) (rank : nat) : Result unit :=
  match items with
  | [] => Ok tt
  | b :: rest =>
      match pair_check_value_rank b rank with
      | Raise e => Raise e
      | Ok _ => check_value_rank_items rest rank
      end
  end.

Definition check_value_rank (self : Boundaries) (rank : nat) : Result unit :=
  check_value_rank_items (b_items self) rank.

(** [Boundaries.get_help] *)
Definition get_help : string :=
  "Boundary conditions for each axis are set using a list: [bc_x, bc_y, "
  +++ "bc_z]. If the associated axis is periodic, the boundary condition needs "
  +++ "to be set to 'periodic'. Otherwise, " +++ pair_get_help.

(** What [from_data] may receive: an instance of [Boundaries] or plain data. *)
Inductive Input : Type :=
| InBoundaries (b : Boundaries)
| InData (d : Data).

(** [boundaries == s] for a string literal [s]: only a string can be equal
    to it. *)
Definition data_eq_str (boundaries : Data) (s : string) : bool :=
  match boundaries with
  | DStr s' => String.eqb s' s
  | _ => false
  end.

(** The loop [for periodic in grid.periodic: boundaries.append(...)] shared
    by the three sentinel keywords; [kind0] is appended on the branch
    [rank == 0] and [kind1] on the branch [else]. *)
Fixpoint natural_loop (kind0 kind1 : string) (rank : nat) (periodics : list bool)
  (boundaries : list Data) : list Data :=
  match periodics with
  | [] => boundaries
  | periodic :: rest =>
      natural_loop kind0 kind1 rank rest
        (boundaries ++ [if periodic then DStr "periodic"
                        else if rank =? 0 then DStr kind0
                        else DStr kind1])
  end.

(** "convert natural boundary conditions if present" *)
Definition convert_natural (grid : Grid) (boundaries : Data) (rank : nat) : Data :=
  if data_eq_str boundaries "natural" || data_eq_str boundaries "auto_periodic_neumann" then
    DSeq (natural_loop "neumann" "neumann" rank (grid_periodic grid) [])
  else if data_eq_str boundaries "auto_periodic_dirichlet" then
    DSeq (natural_loop "dirichlet" "dirichlet" rank (grid_periodic grid) [])
  else if data_eq_str boundaries "auto_periodic_curvature" then
    DSeq (natural_loop "curvature" "curvature" rank (grid_periodic grid) [])
  else boundaries.

(** "create the list of BoundaryAxis objects": [None] when none of the
    shapes applies. *)
Definition make_bcs (grid : Grid) (boundaries : Data) (rank : nat)
  : M Heap (option (list BoundaryPair)) :=
  match boundaries with
  | DStr _ | DDict _ =>
      bcs <- comprehension (fun i => get_boundary_axis grid i boundaries rank)
               (seq 0 (num_axes grid)) ;;
      ret (Some bcs)
  | DSeq items =>
      if List.length items =? num_axes grid then
        bcs <- comprehension (fun ib => get_boundary_axis grid (fst ib) (snd ib) rank)
                 (enumerate items) ;;
        ret (Some bcs)
      else if (num_axes grid =? 1) && (List.length items =? 2) then
        bc <- get_boundary_axis grid 0 boundaries rank ;;
        ret (Some [bc])
      else ret None
  | DNum _ | DNone => ret None
  end.

(** [Boundaries.from_data(grid, boundaries, rank)] *)
Definition from_data (grid : Grid) (boundaries : Input) (rank : nat) : M Heap Boundaries :=
  match boundaries with
  | InBoundaries b =>
      if grid_eq (b_grid b) grid then
        lift (check_value_rank b rank) ;;; ret b
      else raise AssertionError
  | InData d =>
      let d' := convert_natural grid d rank in
      obcs <- make_bcs grid d' rank ;;
      match obcs with
      | None =>
          raise (BCDataError
            ("Unsupported boundary format: `" +++ format_data d' +++ "`. " +++ get_help))
      | Some bcs => Boundaries_new bcs
      end
  end.

(** [list.__eq__] on the items: equal length, and each pair of items is
    identical or equal. *)
Fixpoint items_eq (xs ys : list BoundaryPair) : bool :=
  match xs, ys with
  | [], [] => true
  | x :: xs', y :: ys' => ((bp_id x =? bp_id y) || pair_eq x y) && items_eq xs' ys'
  | _, _ => false
  end.

(** [Boundaries.__eq__] between two instances of [Boundaries]. *)
Definition Boundaries_eq (self other : Boundaries) : bool :=
  items_eq (b_items self) (b_items other) && grid_eq (b_grid self) (b_grid other).

(** [self is other] *)
Definition Boundaries_is (self other : Boundaries) : bool := b_id self =? b_id other.

(** [Boundaries.copy] *)
Definition copy (self : Boundaries) : M Heap Boundaries :=
  bcs <- comprehension pair_copy (b_items self) ;; Boundaries_new bcs.

(** [Boundaries.periodic] *)
Definition periodic (self : Boundaries) : list bool := grid_periodic (b_grid self).

End BoundariesClass.

(** ** Ghost cells *)

Section GhostCells.

(** [W] is the full array with its ghost cells (and whatever else a setter
    touches); [Args] are the additional arguments. *)
Variables W Args : Type.

Definition GhostCellSetter : Type := Args -> M W unit.

(** The two methods of a [BoundaryPair] used here, defined outside of
    [axes.py]. *)
Class GhostModule : Type := {
  pair_set_ghost_cells : BoundaryPair -> GhostCellSetter;
  pair_make_ghost_cell_setter : BoundaryPair -> GhostCellSetter
}.

Context {GM : GhostModule}.

(** [Boundaries.set_ghost_cells] *)
Definition set_ghost_cells (self : Boundaries) : GhostCellSetter :=
  fun args => for_each (fun b => pair_set_ghost_cells b args) (b_items self).

(** The helper [chain(fs, inner)] of [make_ghost_cell_setter]; [fs[0]] of an
    empty tuple raises. *)
Fixpoint chain (fs : list GhostCellSetter) (inner : option GhostCellSetter)
  : Result GhostCellSetter :=
  match fs with
  | [] => Raise (IndexError "tuple index out of range")
  | first :: rest =>
      let wrap : GhostCellSetter :=
        match inner with
        | None => fun args => first args
        | Some inner' => fun args => inner' args ;;; first args
        end in
      match rest with
      | [] => Ok wrap
      | _ :: _ => chain rest (Some wrap)
      end
  end.

(** [Boundaries.make_ghost_cell_setter] *)
Definition make_ghost_cell_setter (self : Boundaries) : Result GhostCellSetter :=
  let ghost_cell_setters := map pair_make_ghost_cell_setter (b_items self) in
  chain ghost_cell_setters None.

End GhostCells.

Arguments pair_set_ghost_cells {W Args GhostModule} _ _ _.
Arguments pair_make_ghost_cell_setter {W Args GhostModule} _ _ _.

(** ** Vocabulary of the specification *)

Section Vocabulary.

Context {GE : GridEq} {AX : AxisModule}.

(** The three checks that one iteration of the consistency loop makes on the
    pair found at index [axis]. *)
Definition consistent_at (grid : Grid) (axis : nat) (p : BoundaryPair) : Prop :=
  grid_eq (bp_grid p) grid = true /\
  bp_axis p = axis /\
  nth_error (grid_periodic grid) axis = Some (bp_periodic p).

(** A valid collection: the object that [__init__] builds from its own
    items. *)
Definition constructed (b : Boundaries) : Prop :=
  Boundaries_init (b_id b) (b_items b) = Ok b.

(** The collection and its pairs are objects of the store [h]. *)
Definition in_store (h : Heap) (b : Boundaries) : Prop :=
  b_id b < h /\ forall p, In p (b_items b) -> bp_id p < h.

(** How a copied pair relates to its original, for copies made in a store
    whose next free address was [h]. *)
Definition copy_of (h : Heap) (p' p : BoundaryPair) : Prop :=
  h <= bp_id p' /\
  bp_grid p' = bp_grid p /\
  bp_axis p' = bp_axis p /\
  bp_periodic p' = bp_periodic p /\
  pair_eq p' p = true.

(** What the specification asks of [BoundaryPair.copy]: it returns a new
    object on the same grid object, for the same axis, equal to the
    original. *)
Definition deep_copy_contract : Prop :=
  forall p h, exists p' h',
    pair_copy p h = (Ok p', h') /\
    h <= bp_id p' /\ bp_id p' < h' /\
    bp_grid p' = bp_grid p /\
    bp_axis p' = bp_axis p /\
    bp_periodic p' = bp_periodic p /\
    pair_eq p' p = true.

(** Rule 4a of the specification: "treat each element as the full
    specification for that axis (mapped 1:1 by position)". *)
Fixpoint rule_4a (grid : Grid) (axis : nat) (items : list Data) (rank : nat)
  : M Heap (list BoundaryPair) :=
  match items with
  | [] => ret []
  | d :: rest =>
      bc <- get_boundary_axis grid axis d rank ;;
      bcs <- rule_4a grid (S axis) rest rank ;;
      ret (bc :: bcs)
  end.

(** Rule 4b of the specification: "treat the two elements as the low/high
    specification pair for the single axis directly". *)
Definition rule_4b (grid : Grid) (items : list Data) (rank : nat)
  : M Heap (list BoundaryPair) :=
  bc <- get_boundary_axis grid 0 (DSeq items) rank ;; ret [bc].

(** Rule 5 of the specification: no production applies. *)
Definition rule_5 (d : Data) : M Heap Boundaries :=
  raise (BCDataError
    ("Unsupported boundary format: `" +++ format_data d +++ "`. " +++ get_help)).

(** Rule 2 of the specification: the non-periodic kind that belongs to a
    sentinel keyword. *)
Definition sentinel_kind (keyword : string) : option string :=
  if String.eqb keyword "natural" then Some "neumann"
  else if String.eqb keyword "auto_periodic_neumann" then Some "neumann"
  else if String.eqb keyword "auto_periodic_dirichlet" then Some "dirichlet"
  else if String.eqb keyword "auto_periodic_curvature" then Some "curvature"
  else None.

(** Rule 2 of the specification: "periodic" where the axis is periodic, else
    the kind of the keyword. *)
Definition keyword_per_axis (kind : string) (grid : Grid) : list Data :=
  map (fun periodic : bool => DStr (if periodic then "periodic" else kind))
      (grid_periodic grid).

End Vocabulary.

(** Calling the setters [fs] one after the other, once each. *)
Definition call_in_order {W Args} (fs : list (GhostCellSetter W Args))
  : GhostCellSetter W Args :=
  fun args => for_each (fun f => f args) fs.

(** What has been composed so far, when [chain] is entered with [inner]. *)
Definition composed_so_far {W Args} (inner : option (GhostCellSetter W Args))
  : GhostCellSetter W Args :=
  match inner with
  | None => fun _ => ret tt
  | Some inner' => inner'
  end.

(** ** A reference implementation of the collaborators

    The theorems below hold for every implementation of [GridEq],
    [AxisModule] and [GhostModule]; the following one is used to run the code
    on concrete inputs. *)

(** Equality of user data, by structure. *)
Fixpoint data_eqb (a b : Data) : bool :=
  match a, b with
  | DStr s, DStr t => String.eqb s t
  | DDict xs, DDict ys =>
      (fix go (xs ys : list (string * Data)) : bool :=
         match xs, ys with
         | [], [] => true
         | (k, x) :: xs', (l, y) :: ys' => String.eqb k l && data_eqb x y && go xs' ys'
         | _, _ => false
         end) xs ys
  | DSeq xs, DSeq ys =>
      (fix go (xs ys : list Data) : bool :=
         match xs, ys with
         | [], [] => true
         | x :: xs', y :: ys' => data_eqb x y && go xs' ys'
         | _, _ => false
         end) xs ys
  | DNum n, DNum m => n =? m
  | DNone, DNone => true
  | _, _ => false
  end.

(** Modelled from the spec: the per-axis boundary constructor of
    [pde.grids.boundaries.axis] is missing; a pair "knows whether the axis is
    periodic", which the keyword ["periodic"] says, and keeps the grid by
    reference. *)
Definition spec_get_boundary_axis (grid : Grid) (axis : nat) (data : Data) (rank : nat)
  : M Heap BoundaryPair :=
  self <- alloc ;;
  ret {| bp_id := self; bp_grid := grid; bp_axis := axis;
         bp_periodic := data_eq_str data "periodic";
         bp_conditions := data; bp_rank := rank |}.

(** Modelled from the spec: [BoundaryPair.copy] is missing; it "deep-copies
    value data; shares the grid reference". *)
Definition spec_pair_copy (p : BoundaryPair) : M Heap BoundaryPair :=
  self <- alloc ;;
  ret {| bp_id := self; bp_grid := bp_grid p; bp_axis := bp_axis p;
         bp_periodic := bp_periodic p;
         bp_conditions := bp_conditions p; bp_rank := bp_rank p |}.

(** Modelled from the spec: equality of pairs is missing; it is structural,
    on the same grid object. *)
Definition spec_pair_eq (p q : BoundaryPair) : bool :=
  grid_is (bp_grid p) (bp_grid q) && (bp_axis p =? bp_axis q)
  && Bool.eqb (bp_periodic p) (bp_periodic q)
  && data_eqb (bp_conditions p) (bp_conditions q) && (bp_rank p =? bp_rank q).

(** Modelled from the spec: [BoundaryPair.check_value_rank] is missing; it
    "fails with a RankError if the stored value data's tensor rank does not
    equal rank". *)
Definition spec_pair_check_value_rank (p : BoundaryPair) (rank : nat) : Result unit :=
  if bp_rank p =? rank then Ok tt
  else Raise (ForeignError "RankError" "rank of the boundary values does not match").

Definition SpecAxisModule : AxisModule := {|
  get_boundary_axis := spec_get_boundary_axis;
  pair_eq := spec_pair_eq;
  pair_copy := spec_pair_copy;
  pair_check_value_rank := spec_pair_check_value_rank;
  pair_get_help := "boundary conditions are given per side.";
  format_data := fun _ => "..."
|}.

(** A setter that only records on which axis it was invoked. *)
Definition probe_setter (p : BoundaryPair) : GhostCellSetter (list nat) unit :=
  fun _ log => (Ok tt, log ++ [bp_axis p]).

Definition ProbeGhostModule : GhostModule (list nat) unit := {|
  pair_set_ghost_cells := probe_setter;
  pair_make_ghost_cell_setter := probe_setter
|}.

(** Sample grids and pairs. *)
Definition grid_1d : Grid := mkGrid 1 1 [false].

Definition grid_2d : Grid := mkGrid 2 2 [false; true].

(** A second grid object with the content of [grid_2d]. *)
Definition grid_2d_twin : Grid := mkGrid 3 2 [false; true].

Definition pair_x : BoundaryPair := mkPair 4 grid_2d 0 false (DStr "neumann") 0.

Definition pair_y : BoundaryPair := mkPair 5 grid_2d 1 true (DStr "periodic") 0.

Definition pair_y_twin : BoundaryPair := mkPair 6 grid_2d_twin 1 true (DStr "periodic") 0.

Definition pair_y_wrong : BoundaryPair := mkPair 7 grid_2d 1 false (DStr "neumann") 0.

Definition bcs_2d : Boundaries := mkBoundaries 8 grid_2d [pair_x; pair_y].

(** ** extract_component *)

(** [BoundaryPair.extract_component], called with the indices of the
    component; it is defined outside of [axes.py]. *)
Class ExtractModule : Type := {
  pair_extract_component : BoundaryPair -> list nat -> M Heap BoundaryPair
}.

(** [Boundaries.extract_component] *)
Definition extract_component {GE : GridEq} {EX : ExtractModule}
  (self : Boundaries) (indices : list nat) : M Heap Boundaries :=
  boundaries <- comprehension (fun boundary => pair_extract_component boundary indices)
                  (b_items self) ;;
  Boundaries_new boundaries.

(** A pair made from another one for the same axis of the same grid object,
    with the same periodicity. *)
Definition same_axis (p' p : BoundaryPair) : Prop :=
  bp_grid p' = bp_grid p /\ bp_axis p' = bp_axis p /\ bp_periodic p' = bp_periodic p.

(** A method of a pair that, when it returns, returns a pair for the same
    axis. *)
Definition keeps_axis (f : BoundaryPair -> M Heap BoundaryPair) : Prop :=
  forall p h p' h', f p h = (Ok p', h') -> same_axis p' p.

(** The shapes of data for which "none of the logic worked". *)
Definition no_production (grid : Grid) (d : Data) : Prop :=
  match d with
  | DStr _ | DDict _ => False
  | DSeq items =>
      List.length items <> num_axes grid /\
      (num_axes grid <> 1 \/ List.length items <> 2)
  | DNum _ | DNone => True
  end.

(** Two items that [list.__eq__] takes for equal. *)
Definition same_item {AX : AxisModule} (p q : BoundaryPair) : Prop :=
  bp_id p = bp_id q \/ pair_eq p q = true.

(** Modelled from the spec: [BoundaryPair.extract_component] is missing; it
    "returns a new lower-rank" pair "selecting one tensor component". *)
Definition spec_pair_extract_component (p : BoundaryPair) (indices : list nat)
  : M Heap BoundaryPair :=
  if List.length indices <=? bp_rank p then
    self <- alloc ;;
    ret {| bp_id := self; bp_grid := bp_grid p; bp_axis := bp_axis p;
           bp_periodic := bp_periodic p;
           bp_conditions := bp_conditions p;
           bp_rank := bp_rank p - List.length indices |}
  else raise (IndexError "too many indices").

Definition SpecExtractModule : ExtractModule :=
  {| pair_extract_component := spec_pair_extract_component |}.

(** A setter that records its axis and fails on periodic axes. *)
Definition strict_setter (p : BoundaryPair) : GhostCellSetter (list nat) unit :=
  fun _ log =>
    (if bp_periodic p then Raise (ForeignError "ValueError" "periodic axis") else Ok tt,
     log ++ [bp_axis p]).

Definition StrictGhostModule : GhostModule (list nat) unit := {|
  pair_set_ghost_cells := strict_setter;
  pair_make_ghost_cell_setter := strict_setter
|}.

(** Boundaries of a vector field on [grid_2d]. *)
Definition pair_vx : BoundaryPair := mkPair 14 grid_2d 0 false (DStr "dirichlet") 1.

Definition pair_vy : BoundaryPair := mkPair 15 grid_2d 1 true (DStr "periodic") 1.

Definition bcs_vec : Boundaries := mkBoundaries 16 grid_2d [pair_vx; pair_vy].

(** * Properties *)

Unset Implicit Arguments.

(** ** The monad *)

Lemma bind_ok {S A B} (m : M S A) (k : A -> M S B) s a s' :
  m s = (Ok a, s') -> bind m k s = k a s'.
Proof. intros E. unfold bind. now rewrite E. Qed.

Lemma bind_raise {S A B} (m : M S A) (k : A -> M S B) s e s' :
  m s = (Raise e, s') -> bind m k s = (Raise e, s').
Proof. intros E. unfold bind. now rewrite E. Qed.

Lemma bind_inv_ok {S A B} (m : M S A) (k : A -> M S B) s b s2 :
  bind m k s = (Ok b, s2) ->
  exists a s1, m s = (Ok a, s1) /\ k a s1 = (Ok b, s2).
Proof.
  unfold bind. destruct (m s) as [[a|e] s1]; intros E.
  - now exists a, s1.
  - discriminate.
Qed.

Lemma bind_assoc {S A B C} (m : M S A) (f : A -> M S B) (g : B -> M S C) s :
  bind (bind m f) g s = bind m (fun a => bind (f a) g) s.
Proof. unfold bind. now destruct (m s) as [[a|e] s1]. Qed.

Lemma bind_ext {S A B} (m : M S A) (k k' : A -> M S B) s :
  (forall a s1, k a s1 = k' a s1) -> bind m k s = bind m k' s.
Proof. intros H. unfold bind. destruct (m s) as [[a|e] s1]; [apply H | reflexivity]. Qed.

Lemma bind_ret_unit {S} (m : M S unit) s : bind m (fun _ => ret tt) s = m s.
Proof. unfold bind, ret. now destruct (m s) as [[[]|e] s1]. Qed.

(** ** Runs of the scenarios of the specification

    With grids compared by identity and the reference implementation of the
    pairs. *)

(** Scenario A: a grid with periodic = [False, True] and the keyword
    "auto_periodic_neumann". *)
Example scenario_auto_periodic_neumann :
  @from_data IdentityGridEq SpecAxisModule grid_2d
    (InData (DStr "auto_periodic_neumann")) 0 9
  = (Ok (mkBoundaries 11 grid_2d
           [mkPair 9 grid_2d 0 false (DStr "neumann") 0;
            mkPair 10 grid_2d 1 true (DStr "periodic") 0]), 12).
Proof. reflexivity. Qed.

(** Scenario C: the single keyword "periodic" on a grid with
    periodic = [True, False, True]. *)
Example scenario_periodic_on_mixed_grid :
  @from_data IdentityGridEq SpecAxisModule (mkGrid 1 3 [true; false; true])
    (InData (DStr "periodic")) 0 9
  = (Raise (PeriodicityError
       ("Periodicity specified in the boundaries conditions is not "
        +++ "compatible with the grid (True != False for axis 1)")), 13).
Proof. reflexivity. Qed.

(** Scenario E: boundaries of a scalar field reused for a vector field. *)
Example scenario_wrong_rank :
  @from_data IdentityGridEq SpecAxisModule grid_2d (InBoundaries bcs_2d) 1 9
  = (Raise (ForeignError "RankError" "rank of the boundary values does not match"), 9).
Proof. reflexivity. Qed.

(** A sequence that fits neither the axes nor the shorthand. *)
Example scenario_unsupported_sequence :
  @from_data IdentityGridEq SpecAxisModule grid_2d
    (InData (DSeq [DStr "neumann"; DStr "neumann"; DStr "neumann"])) 0 9
  = (Raise (BCDataError
       ("Unsupported boundary format: `...`. "
        +++ "Boundary conditions for each axis are set using a list: [bc_x, bc_y, "
        +++ "bc_z]. If the associated axis is periodic, the boundary condition needs "
        +++ "to be set to 'periodic'. Otherwise, boundary conditions are given per side.")), 9).
Proof. reflexivity. Qed.

(** ** The constructor *)

Section Constructor.

Context {GE : GridEq}.

Lemma check_consistency_ok grid axis boundaries :
  check_consistency grid axis boundaries = Ok tt <->
  (forall i p, nth_error boundaries i = Some p -> consistent_at grid (axis + i) p).
Proof.
  revert axis. induction boundaries as [|b rest IH]; intros axis; cbn [check_consistency].
  - split; [intros _ [|i] p E; discriminate | reflexivity].
  - destruct (grid_eq (bp_grid b) grid) eqn:Eg; cbn [negb].
    2:{ split; [discriminate|]. intros H. destruct (H 0 b eq_refl) as (Hg & _). congruence. }
    destruct (Nat.eqb_spec (bp_axis b) axis) as [Ea|Ea]; cbn [negb].
    2:{ split; [discriminate|]. intros H. destruct (H 0 b eq_refl) as (_ & Hx & _).
        rewrite Nat.add_0_r in Hx. contradiction. }
    destruct (nth_error (grid_periodic grid) axis) as [gp|] eqn:Ep.
    2:{ split; [discriminate|]. intros H. destruct (H 0 b eq_refl) as (_ & _ & Hp).
        rewrite Nat.add_0_r in Hp. congruence. }
    destruct (Bool.eqb (bp_periodic b) gp) eqn:Eb; cbn [negb].
    2:{ split; [discriminate|]. intros H. destruct (H 0 b eq_refl) as (_ & _ & Hp).
        rewrite Nat.add_0_r, Ep in Hp. injection Hp as ->.
        rewrite Bool.eqb_reflx in Eb. discriminate. }
    apply Bool.eqb_prop in Eb. rewrite IH. split.
    + intros H [|i] p E.
      * injection E as <-. rewrite Nat.add_0_r. repeat split; congruence.
      * rewrite Nat.add_succ_r. apply (H i p E).
    + intros H i p E. specialize (H (S i) p E). now rewrite Nat.add_succ_r in H.
Qed.

Lemma check_consistency_unit grid axis boundaries u :
  check_consistency grid axis boundaries = Ok u -> check_consistency grid axis boundaries = Ok tt.
Proof. now destruct u. Qed.

(** What a successful [__init__] has checked. *)
Lemma Boundaries_init_inv self boundaries b :
  Boundaries_init self boundaries = Ok b ->
  exists first rest,
    boundaries = first :: rest /\
    b = {| b_id := self; b_grid := bp_grid first; b_items := boundaries |} /\
    List.length boundaries = num_axes (bp_grid first) /\
    check_consistency (bp_grid first) 0 boundaries = Ok tt.
Proof.
  unfold Boundaries_init. destruct boundaries as [|first rest]; [discriminate|].
  cbv zeta.
  destruct (Nat.eqb_spec (List.length (first :: rest)) (num_axes (bp_grid first))) as [El|El];
    cbn [negb]; [|discriminate].
  destruct (check_consistency (bp_grid first) 0 (first :: rest)) as [u|e] eqn:Ec; [|discriminate].
  intros [= <-]. exists first, rest. repeat split; auto. now destruct u.
Qed.

(** The conditions under which [__init__] succeeds. *)
Lemma Boundaries_init_intro self first rest :
  List.length (first :: rest) = num_axes (bp_grid first) ->
  check_consistency (bp_grid first) 0 (first :: rest) = Ok tt ->
  Boundaries_init self (first :: rest)
  = Ok {| b_id := self; b_grid := bp_grid first; b_items := first :: rest |}.
Proof.
  intros El Ec. unfold Boundaries_init. cbv zeta.
  rewrite (proj2 (Nat.eqb_eq _ _) El). cbn [negb]. now rewrite Ec.
Qed.

Lemma Boundaries_new_run boundaries h :
  Boundaries_new boundaries h = (Boundaries_init h boundaries, S h).
Proof. reflexivity. Qed.


Lemma nth_error_below {A} (l : list A) i j x :
  nth_error l j = Some x -> i <= j -> exists y, nth_error l i = Some y.
Proof.
  intros E L. destruct (nth_error l i) as [y|] eqn:Ei; [now exists y|].
  apply nth_error_None in Ei. assert (nth_error l j <> None) as N by congruence.
  apply nth_error_Some in N. lia.
Qed.

(** When the grid and axis checks pass up to index [i], a disagreement on
    the periodicity at [i] ends the loop with [PeriodicityError]. *)
Lemma check_consistency_periodicity grid boundaries : forall axis i p gp,
  (forall j q, j <= i -> nth_error boundaries j = Some q ->
     grid_eq (bp_grid q) grid = true /\ bp_axis q = axis + j) ->
  nth_error boundaries i = Some p ->
  nth_error (grid_periodic grid) (axis + i) = Some gp ->
  bp_periodic p <> gp ->
  exists msg, check_consistency grid axis boundaries = Raise (PeriodicityError msg).
Proof.
  induction boundaries as [|b rest IH]; intros axis i p gp Hall Ei Eg Hne.
  - destruct i; discriminate.
  - cbn [check_consistency].
    destruct (Hall 0 b (Nat.le_0_l i) eq_refl) as (Hg & Ha). rewrite Nat.add_0_r in Ha.
    rewrite Hg, Ha, Nat.eqb_refl. cbn [negb].
    destruct (@nth_error_below _ (grid_periodic grid) axis _ _ Eg) as (g0 & E0); [lia|].
    rewrite E0.
    destruct (Bool.eqb (bp_periodic b) g0) eqn:Eb; cbn [negb]; [|eauto].
    destruct i as [|i].
    + injection Ei as <-. rewrite Nat.add_0_r, E0 in Eg. injection Eg as <-.
      apply Bool.eqb_prop in Eb. contradiction.
    + apply (IH (S axis) i p gp); auto.
      * intros j q Lj Ej. rewrite Nat.add_succ_comm. apply (Hall (S j) q); [lia | exact Ej].
      * now rewrite Nat.add_succ_comm.
Qed.

(** C9: passing an empty list to the constructor raises [BCDataError] with
    the message that the list must not be empty, and the caller gets no
    object, whatever the state of the store. *)
Theorem empty_list_rejected (h : Heap) :
  Boundaries_new [] h
  = (Raise (BCDataError "List of boundaries must not be empty"), S h)
  /\ returned_object (fst (Boundaries_new [] h)) = None.
Proof. split; reflexivity. Qed.

(** C2: for a list with one pair per axis, whose pairs up to index [i] are
    in axis order and on the grid of the first pair, a pair at [i] whose
    periodic flag differs from [grid.periodic[i]] makes the constructor
    raise [PeriodicityError], the class of its own, and not [BCDataError]. *)
Theorem periodicity_mismatch_raises first rest h i p gp :
  List.length (first :: rest) = num_axes (bp_grid first) ->
  (forall j q, j <= i -> nth_error (first :: rest) j = Some q ->
     grid_eq (bp_grid q) (bp_grid first) = true /\ bp_axis q = j) ->
  nth_error (first :: rest) i = Some p ->
  nth_error (grid_periodic (bp_grid first)) i = Some gp ->
  bp_periodic p <> gp ->
  exists msg,
    Boundaries_new (first :: rest) h = (Raise (PeriodicityError msg), S h)
    /\ forall msg', PeriodicityError msg <> BCDataError msg'.
Proof.
  intros El Hall Ei Eg Hne.
  destruct (check_consistency_periodicity (bp_grid first) (first :: rest) 0 i p gp Hall Ei Eg Hne)
    as (msg & Ec).
  exists msg. split; [|discriminate].
  rewrite Boundaries_new_run. unfold Boundaries_init. cbv zeta.
  rewrite (proj2 (Nat.eqb_eq _ _) El). cbn [negb]. now rewrite Ec.
Qed.

End Constructor.

Lemma periodicity_mismatch_raises_witness :
  exists msg,
    @Boundaries_new IdentityGridEq [pair_x; pair_y_wrong] 9
    = (Raise (PeriodicityError msg), 10)
    /\ forall msg', PeriodicityError msg <> BCDataError msg'.
Proof.
  apply (@periodicity_mismatch_raises IdentityGridEq pair_x [pair_y_wrong] 9 1
           pair_y_wrong true).
  - reflexivity.
  - intros [|[|[|j]]] q _ E; cbn in E; try discriminate; injection E as <-; now split.
  - reflexivity.
  - reflexivity.
  - discriminate.
Defined.

(** ** The grid of a collection *)

Section GridOfCollection.

Context {GE : GridEq}.

(** C10, as amended: the constructor takes the grid of the first pair as
    the grid of the collection and makes every check against it; a non-empty
    list of pairs in axis order, all on one grid object that is equal to
    itself, with as many pairs as that grid has axes and with matching
    periodicity, constructs successfully, whichever grid that is. *)
Theorem constructor_takes_first_grid :
  (forall boundaries h b h',
     Boundaries_new boundaries h = (Ok b, h') ->
     exists first rest,
       boundaries = first :: rest /\
       b_grid b = bp_grid first /\
       List.length boundaries = num_axes (bp_grid first) /\
       forall i p, nth_error boundaries i = Some p -> consistent_at (bp_grid first) i p)
  /\
  (forall grid first rest h,
     (forall p, In p (first :: rest) -> bp_grid p = grid) ->
     grid_eq grid grid = true ->
     List.length (first :: rest) = num_axes grid ->
     (forall i p, nth_error (first :: rest) i = Some p ->
        bp_axis p = i /\ nth_error (grid_periodic grid) i = Some (bp_periodic p)) ->
     Boundaries_new (first :: rest) h
     = (Ok {| b_id := h; b_grid := grid; b_items := first :: rest |}, S h)).
Proof.
  split.
  - intros boundaries h b h' E. rewrite Boundaries_new_run in E.
    injection E as E _.
    destruct (Boundaries_init_inv _ _ _ E) as (first & rest & -> & -> & El & Ec).
    exists first, rest. split; [reflexivity|]. split; [reflexivity|]. split; [exact El|].
    intros i p Ei. apply (proj1 (check_consistency_ok _ 0 _) Ec i p Ei).
  - intros grid first rest h Hg Hrefl El Hall.
    assert (bp_grid first = grid) as Ef by (apply Hg; now left).
    rewrite Boundaries_new_run, Boundaries_init_intro; rewrite Ef; auto.
    apply check_consistency_ok. intros i p Ei. cbn [Nat.add].
    destruct (Hall i p Ei) as (Ha & Hp).
    repeat split; auto.
    rewrite (Hg p (nth_error_In _ _ Ei)). exact Hrefl.
Qed.

End GridOfCollection.

Lemma constructor_takes_first_grid_witness :
  @Boundaries_new IdentityGridEq [pair_x; pair_y] 9
  = (Ok {| b_id := 9; b_grid := grid_2d; b_items := [pair_x; pair_y] |}, 10).
Proof.
  apply (proj2 (@constructor_takes_first_grid IdentityGridEq) grid_2d pair_x [pair_y] 9).
  - intros p [<-|[<-|[]]]; reflexivity.
  - reflexivity.
  - reflexivity.
  - intros [|[|[|k]]] p E; cbn in E; try discriminate; injection E as <-; now split.
Defined.

(** C10, as first stated, does not ask for one pair per axis: a single pair
    for axis 0 of a grid with two axes is a non-empty list in axis order on
    one grid with matching periodicity, and the constructor rejects it. *)
Lemma constructor_needs_every_axis :
  ~ (forall (GE : GridEq) grid first rest h,
       (forall p, In p (first :: rest) -> bp_grid p = grid) ->
       grid_eq grid grid = true ->
       (forall i p, nth_error (first :: rest) i = Some p ->
          bp_axis p = i /\ nth_error (grid_periodic grid) i = Some (bp_periodic p)) ->
       exists b h', Boundaries_new (first :: rest) h = (Ok b, h')).
Proof.
  intros H.
  destruct (H IdentityGridEq grid_2d pair_x [] 9) as (b & h' & E).
  - intros p [<-|[]]; reflexivity.
  - reflexivity.
  - intros [|[|k]] p E; cbn in E; try discriminate; injection E as <-; now split.
  - discriminate E.
Qed.

(** ** Normalisation of user data *)

Section FromData.

Context {GE : GridEq} {AX : AxisModule}.

Lemma comprehension_length {S A B} (f : A -> M S B) xs : forall s ys s',
  comprehension f xs s = (Ok ys, s') -> List.length ys = List.length xs.
Proof.
  induction xs as [|x xs IH]; intros s ys s' E; cbn [comprehension] in E.
  - injection E as <- _. reflexivity.
  - apply bind_inv_ok in E. destruct E as (y & s1 & _ & E).
    apply bind_inv_ok in E. destruct E as (ys' & s2 & E & R).
    injection R as <- _. cbn [List.length]. f_equal. eapply IH, E.
Qed.

Lemma enumerate_from_length {A} (xs : list A) : forall start,
  List.length (enumerate_from start xs) = List.length xs.
Proof. induction xs as [|x xs IH]; intros start; cbn; [reflexivity | now rewrite IH]. Qed.

(** Every production of [make_bcs] yields one pair per axis of [grid]. *)
Lemma make_bcs_length grid d rank h bcs h' :
  make_bcs grid d rank h = (Ok (Some bcs), h') -> List.length bcs = num_axes grid.
Proof.
  unfold make_bcs. destruct d as [s|items|items|n|].
  - intros E. apply bind_inv_ok in E. destruct E as (l & s1 & E & R).
    injection R as <- _. apply comprehension_length in E. now rewrite E, length_seq.
  - intros E. apply bind_inv_ok in E. destruct E as (l & s1 & E & R).
    injection R as <- _. apply comprehension_length in E. now rewrite E, length_seq.
  - destruct (Nat.eqb_spec (List.length items) (num_axes grid)) as [El|El].
    + intros E. apply bind_inv_ok in E. destruct E as (l & s1 & E & R).
      injection R as <- _. apply comprehension_length in E.
      unfold enumerate in E. now rewrite E, enumerate_from_length.
    + destruct (Nat.eqb_spec (num_axes grid) 1) as [E1|E1]; cbn [andb].
      * destruct (List.length items =? 2).
        -- intros E. apply bind_inv_ok in E. destruct E as (bc & s1 & _ & R).
           injection R as <- _. now rewrite E1.
        -- discriminate.
      * discriminate.
  - discriminate.
  - discriminate.
Qed.

(** On plain data a successful [from_data] ends in the constructor. *)
Lemma from_data_inv grid d rank h b h' :
  from_data grid (InData d) rank h = (Ok b, h') ->
  exists bcs h1,
    make_bcs grid (convert_natural grid d rank) rank h = (Ok (Some bcs), h1) /\
    Boundaries_new bcs h1 = (Ok b, h').
Proof.
  unfold from_data. cbv zeta. intros E.
  apply bind_inv_ok in E. destruct E as ([bcs|] & h1 & E & R).
  - now exists bcs, h1.
  - discriminate.
Qed.

(** What the constructor guarantees about the items it accepted. *)
Lemma Boundaries_new_items boundaries h b h' :
  Boundaries_new boundaries h = (Ok b, h') ->
  b_items b = boundaries /\
  List.length (b_items b) = num_axes (b_grid b) /\
  forall i p, nth_error (b_items b) i = Some p -> consistent_at (b_grid b) i p.
Proof.
  intros E. rewrite Boundaries_new_run in E. injection E as E _.
  destruct (Boundaries_init_inv _ _ _ E) as (first & rest & -> & -> & El & Ec).
  cbn [b_items b_grid]. split; [reflexivity|]. split; [exact El|].
  intros i p Ei. apply (proj1 (check_consistency_ok _ 0 _) Ec i p Ei).
Qed.

Lemma constructed_items b :
  constructed b ->
  List.length (b_items b) = num_axes (b_grid b) /\
  forall i p, nth_error (b_items b) i = Some p -> consistent_at (b_grid b) i p.
Proof.
  intros C. apply (Boundaries_new_items (b_items b) (b_id b) b (S (b_id b))).
  rewrite Boundaries_new_run. now rewrite C.
Qed.

(** The fast path of [from_data]. *)
Lemma from_data_fast_inv grid b0 rank h b h' :
  from_data grid (InBoundaries b0) rank h = (Ok b, h') ->
  grid_eq (b_grid b0) grid = true /\ check_value_rank b0 rank = Ok tt /\ b = b0 /\ h' = h.
Proof.
  unfold from_data. destruct (grid_eq (b_grid b0) grid); [|discriminate].
  unfold bind, lift, ret. destruct (check_value_rank b0 rank) as [[]|e]; [|discriminate].
  intros [= <- <-]. auto.
Qed.

(** C1: a collection built by the constructor or by [from_data] holds
    exactly [num_axes] pairs of its grid (of the target grid for
    [from_data]), the pair at index [i] being the one for axis [i]; the
    constructor keeps the list as it is, rejects a list whose length differs
    from [num_axes] and rejects a list with a pair out of axis order. *)
Theorem axis_pairs_invariant :
  (forall boundaries h b h',
     Boundaries_new boundaries h = (Ok b, h') ->
     b_items b = boundaries /\
     List.length (b_items b) = num_axes (b_grid b) /\
     forall i p, nth_error (b_items b) i = Some p -> bp_axis p = i)
  /\
  (forall grid d rank h b h',
     from_data grid (InData d) rank h = (Ok b, h') ->
     List.length (b_items b) = num_axes grid /\
     forall i p, nth_error (b_items b) i = Some p -> bp_axis p = i)
  /\
  (forall grid b0 rank h b h',
     constructed b0 ->
     (forall g1 g2, grid_eq g1 g2 = true -> num_axes g1 = num_axes g2) ->
     from_data grid (InBoundaries b0) rank h = (Ok b, h') ->
     List.length (b_items b) = num_axes grid /\
     forall i p, nth_error (b_items b) i = Some p -> bp_axis p = i)
  /\
  (forall first rest h,
     List.length (first :: rest) <> num_axes (bp_grid first) ->
     Boundaries_new (first :: rest) h
     = (Raise (BCDataError ("Need boundary conditions for "
                            +++ str_of_nat (num_axes (bp_grid first)) +++ " axes")), S h))
  /\
  (forall boundaries h i p,
     nth_error boundaries i = Some p -> bp_axis p <> i ->
     exists e, Boundaries_new boundaries h = (Raise e, S h)).
Proof.
  split; [|split; [|split; [|split]]].
  - intros boundaries h b h' E.
    destruct (Boundaries_new_items _ _ _ _ E) as (Hi & Hl & Hc).
    split; [exact Hi|]. split; [exact Hl|]. intros i p Ei. apply (Hc i p Ei).
  - intros grid d rank h b h' E.
    destruct (from_data_inv _ _ _ _ _ _ E) as (bcs & h1 & Em & En).
    destruct (Boundaries_new_items _ _ _ _ En) as (Hi & Hl & Hc).
    split.
    + rewrite Hi. apply (make_bcs_length _ _ _ _ _ _ Em).
    + intros i p Ei. apply (Hc i p Ei).
  - intros grid b0 rank h b h' C Hcongr E.
    destruct (from_data_fast_inv _ _ _ _ _ _ E) as (Hg & _ & -> & _).
    destruct (constructed_items _ C) as (Hl & Hc).
    split.
    + rewrite Hl. apply Hcongr, Hg.
    + intros i p Ei. apply (Hc i p Ei).
  - intros first rest h Hne. rewrite Boundaries_new_run. unfold Boundaries_init. cbv zeta.
    now rewrite (proj2 (Nat.eqb_neq _ _) Hne).
  - intros boundaries h i p Ei Hne. rewrite Boundaries_new_run.
    destruct (Boundaries_init h boundaries) as [b|e] eqn:E; [|now exists e].
    exfalso. apply Hne.
    assert (Boundaries_new boundaries h = (Ok b, S h)) as En
      by (rewrite Boundaries_new_run; now rewrite E).
    destruct (Boundaries_new_items _ _ _ _ En) as (Hi & _ & Hc).
    rewrite Hi in Hc. apply (Hc i p Ei).
Qed.

(** C6: for a collection [b] whose grid is equal to [grid] and that passes
    the rank check, [from_data] returns [b] itself: the same object, with no
    object allocated and no data normalised. *)
Theorem from_data_returns_same_object grid b rank h :
  grid_eq (b_grid b) grid = true ->
  check_value_rank b rank = Ok tt ->
  exists b', from_data grid (InBoundaries b) rank h = (Ok b', h)
             /\ b' = b /\ Boundaries_is b' b = true.
Proof.
  intros Hg Hr. exists b. unfold from_data. rewrite Hg.
  unfold bind, lift, ret. rewrite Hr.
  split; [reflexivity|]. split; [reflexivity|]. apply Nat.eqb_refl.
Qed.

End FromData.

Lemma axis_pairs_invariant_witness :
  let b := mkBoundaries 11 grid_2d
             [mkPair 9 grid_2d 0 false (DStr "neumann") 0;
              mkPair 10 grid_2d 1 true (DStr "periodic") 0] in
  List.length (b_items b) = num_axes grid_2d /\
  forall i p, nth_error (b_items b) i = Some p -> bp_axis p = i.
Proof.
  apply (proj1 (proj2 (@axis_pairs_invariant IdentityGridEq SpecAxisModule))
           grid_2d (DStr "natural") 0 9 _ 12).
  reflexivity.
Defined.

Lemma from_data_returns_same_object_witness :
  exists b', @from_data IdentityGridEq SpecAxisModule grid_2d (InBoundaries bcs_2d) 0 9
             = (Ok b', 9)
             /\ b' = bcs_2d /\ Boundaries_is b' bcs_2d = true.
Proof.
  apply (@from_data_returns_same_object IdentityGridEq SpecAxisModule grid_2d bcs_2d 0 9).
  - reflexivity.
  - reflexivity.
Defined.

(** ** Identity and equality of grids *)

(** C7, as amended: the grid consistency check is the comparison [==] of
    the grids, not their identity.  The constructor accepts a list only if
    the grid of every pair is equal to the grid of the first pair, and the
    fast path of [from_data] goes on only if the grid of the collection is
    equal to the target grid, raising [AssertionError] otherwise; for grids
    compared by identity, the accepted pairs are all on one grid object. *)
Theorem grid_check_is_equality :
  (forall (GE : GridEq) boundaries h b h',
     Boundaries_new boundaries h = (Ok b, h') ->
     forall p, In p boundaries -> grid_eq (bp_grid p) (b_grid b) = true)
  /\
  (forall (GE : GridEq) (AX : AxisModule) grid b0 rank h b h',
     from_data grid (InBoundaries b0) rank h = (Ok b, h') ->
     grid_eq (b_grid b0) grid = true)
  /\
  (forall (GE : GridEq) (AX : AxisModule) grid b0 rank h,
     grid_eq (b_grid b0) grid = false ->
     from_data grid (InBoundaries b0) rank h = (Raise AssertionError, h))
  /\
  (forall boundaries h b h',
     @Boundaries_new IdentityGridEq boundaries h = (Ok b, h') ->
     forall p, In p boundaries -> grid_id (bp_grid p) = grid_id (b_grid b)).
Proof.
  assert (forall (GE : GridEq) boundaries h b h',
     Boundaries_new boundaries h = (Ok b, h') ->
     forall p, In p boundaries -> grid_eq (bp_grid p) (b_grid b) = true) as Hctor.
  { intros GE boundaries h b h' E p Hp.
    destruct (Boundaries_new_items _ _ _ _ E) as (Hi & _ & Hc).
    apply In_nth_error in Hp. destruct Hp as (i & Ei). rewrite <- Hi in Ei.
    apply (Hc i p Ei). }
  split; [exact Hctor|]. split; [|split].
  - intros GE AX grid b0 rank h b h' E.
    apply (from_data_fast_inv _ _ _ _ _ _ E).
  - intros GE AX grid b0 rank h Hg. unfold from_data. now rewrite Hg.
  - intros boundaries h b h' E p Hp.
    apply Nat.eqb_eq. apply (Hctor IdentityGridEq _ _ _ _ E p Hp).
Qed.

Lemma grid_check_is_equality_witness :
  @grid_eq StructuralGridEq (bp_grid pair_y_twin) grid_2d = true
  /\ grid_id (bp_grid pair_y) = grid_id grid_2d.
Proof.
  split.
  - apply (proj1 grid_check_is_equality StructuralGridEq
             [pair_x; pair_y_twin] 9 (mkBoundaries 9 grid_2d [pair_x; pair_y_twin]) 10).
    + reflexivity.
    + right. now left.
  - apply (proj2 (proj2 (proj2 grid_check_is_equality))
             [pair_x; pair_y] 9 (mkBoundaries 9 grid_2d [pair_x; pair_y]) 10).
    + reflexivity.
    + right. now left.
Defined.

(** C7, as first stated, asks for the same grid object.  Grids that compare
    by content pass the check of the constructor on two distinct objects,
    and the fast path of [from_data] accepts a collection for a target grid
    that is another object than its own. *)
Lemma equal_grids_pass_identity_claim :
  @Boundaries_new StructuralGridEq [pair_x; pair_y_twin] 9
  = (Ok (mkBoundaries 9 grid_2d [pair_x; pair_y_twin]), 10)
  /\ grid_is (bp_grid pair_y_twin) grid_2d = false
  /\ @from_data StructuralGridEq SpecAxisModule grid_2d_twin (InBoundaries bcs_2d) 0 9
     = (Ok bcs_2d, 9)
  /\ grid_is (b_grid bcs_2d) grid_2d_twin = false.
Proof. repeat split. Qed.

(** ** Sentinel keywords and sequences *)

Section Shapes.

Context {GE : GridEq} {AX : AxisModule}.

(** The appending loop computes a [map] over [grid.periodic]. *)
Lemma natural_loop_map kind0 kind1 rank periodics : forall boundaries,
  natural_loop kind0 kind1 rank periodics boundaries
  = boundaries ++ map (fun periodic : bool =>
                         if periodic then DStr "periodic"
                         else if rank =? 0 then DStr kind0 else DStr kind1) periodics.
Proof.
  induction periodics as [|periodic rest IH]; intros boundaries; cbn [natural_loop map].
  - now rewrite app_nil_r.
  - rewrite IH, <- app_assoc. reflexivity.
Qed.

Lemma natural_loop_kind kind rank grid :
  natural_loop kind kind rank (grid_periodic grid) [] = keyword_per_axis kind grid.
Proof.
  rewrite natural_loop_map. cbn [app]. unfold keyword_per_axis.
  apply map_ext. intros [|]; [reflexivity|]. now destruct (rank =? 0).
Qed.

(** The expansion of a sentinel keyword, whatever the rank. *)
Lemma convert_natural_sentinel grid rank keyword kind :
  sentinel_kind keyword = Some kind ->
  convert_natural grid (DStr keyword) rank = DSeq (keyword_per_axis kind grid).
Proof.
  unfold sentinel_kind, convert_natural, data_eq_str.
  destruct (String.eqb keyword "natural");
    [intros [= <-]; cbn [orb]; now rewrite natural_loop_kind|].
  destruct (String.eqb keyword "auto_periodic_neumann");
    [intros [= <-]; cbn [orb]; now rewrite natural_loop_kind|].
  destruct (String.eqb keyword "auto_periodic_dirichlet");
    [intros [= <-]; cbn [orb]; now rewrite natural_loop_kind|].
  destruct (String.eqb keyword "auto_periodic_curvature");
    [intros [= <-]; cbn [orb]; now rewrite natural_loop_kind|].
  discriminate.
Qed.

(** C5: [from_data] expands each sentinel keyword into one keyword per
    entry of [grid.periodic], ["periodic"] where the entry is true and the
    kind of the sentinel where it is false; the rank has no part in the
    choice, and [from_data] goes on with the expanded list. *)
Theorem sentinel_expansion grid rank keyword kind :
  sentinel_kind keyword = Some kind ->
  convert_natural grid (DStr keyword) rank = DSeq (keyword_per_axis kind grid)
  /\ List.length (keyword_per_axis kind grid) = List.length (grid_periodic grid)
  /\ (forall i periodic,
        nth_error (grid_periodic grid) i = Some periodic ->
        nth_error (keyword_per_axis kind grid) i
        = Some (DStr (if periodic then "periodic" else kind)))
  /\ (forall rank',
        convert_natural grid (DStr keyword) rank' = convert_natural grid (DStr keyword) rank)
  /\ (forall h,
        from_data grid (InData (DStr keyword)) rank h
        = from_data grid (InData (DSeq (keyword_per_axis kind grid))) rank h).
Proof.
  intros Hk. split; [now apply convert_natural_sentinel|].
  split; [apply length_map|]. split; [|split].
  - intros i periodic Ei. unfold keyword_per_axis. now rewrite nth_error_map, Ei.
  - intros rank'. now rewrite !(convert_natural_sentinel _ _ _ _ Hk).
  - intros h. unfold from_data. now rewrite (convert_natural_sentinel _ _ _ _ Hk).
Qed.

(** The comprehension over [enumerate(boundaries)] is rule 4a. *)
Lemma comprehension_enumerate grid rank items : forall start h,
  comprehension (fun ib => get_boundary_axis grid (fst ib) (snd ib) rank)
    (enumerate_from start items) h
  = rule_4a grid start items rank h.
Proof.
  induction items as [|d rest IH]; intros start h; cbn [enumerate_from comprehension rule_4a].
  - reflexivity.
  - cbn [fst snd]. apply bind_ext. intros bc s1. unfold bind. now rewrite IH.
Qed.

(** C4: a sequence with as many elements as the grid has axes is read axis
    by axis; the shorthand for the two sides is taken only for a grid with
    one axis and a sequence of exactly two elements; any other sequence is
    rejected without being read; so two elements for a grid with two axes
    are read axis by axis. *)
Theorem sequence_interpretation grid items rank h :
  (List.length items = num_axes grid ->
   from_data grid (InData (DSeq items)) rank h
   = (bcs <- rule_4a grid 0 items rank ;; Boundaries_new bcs) h)
  /\
  (List.length items <> num_axes grid -> num_axes grid = 1 -> List.length items = 2 ->
   from_data grid (InData (DSeq items)) rank h
   = (bcs <- rule_4b grid items rank ;; Boundaries_new bcs) h)
  /\
  (List.length items <> num_axes grid -> num_axes grid <> 1 \/ List.length items <> 2 ->
   from_data grid (InData (DSeq items)) rank h = rule_5 (DSeq items) h)
  /\
  (num_axes grid = 2 -> forall x y, items = [x; y] ->
   from_data grid (InData (DSeq items)) rank h
   = (bc_x <- get_boundary_axis grid 0 x rank ;;
      bc_y <- get_boundary_axis grid 1 y rank ;;
      Boundaries_new [bc_x; bc_y]) h).
Proof.
  assert (List.length items = num_axes grid ->
          from_data grid (InData (DSeq items)) rank h
          = (bcs <- rule_4a grid 0 items rank ;; Boundaries_new bcs) h) as H4a.
  { intros El. unfold from_data, convert_natural, data_eq_str. cbn [orb]. cbv zeta.
    unfold make_bcs. rewrite (proj2 (Nat.eqb_eq _ _) El).
    rewrite bind_assoc. unfold bind at 1 3. unfold enumerate.
    rewrite comprehension_enumerate.
    now destruct (rule_4a grid 0 items rank h) as [[bcs|e] s1]. }
  split; [exact H4a|]. split; [|split].
  - intros Hne E1 E2. unfold from_data, convert_natural, data_eq_str. cbn [orb]. cbv zeta.
    unfold make_bcs. rewrite (proj2 (Nat.eqb_neq _ _) Hne), E1, E2. cbn [Nat.eqb andb].
    unfold rule_4b. rewrite !bind_assoc. apply bind_ext. reflexivity.
  - intros Hne Hor. unfold from_data, convert_natural, data_eq_str. cbn [orb]. cbv zeta.
    unfold make_bcs. rewrite (proj2 (Nat.eqb_neq _ _) Hne).
    assert ((num_axes grid =? 1) && (List.length items =? 2) = false) as ->.
    { apply andb_false_iff. destruct Hor as [H|H]; [left|right]; now apply Nat.eqb_neq. }
    reflexivity.
  - intros E2 x y ->. rewrite H4a by (now rewrite E2). cbn [rule_4a].
    rewrite bind_assoc. apply bind_ext. intros bc_x s1.
    rewrite !bind_assoc. apply bind_ext. intros bc_y s2. reflexivity.
Qed.

End Shapes.

Lemma sentinel_expansion_witness :
  convert_natural grid_2d (DStr "auto_periodic_dirichlet") 1
  = DSeq [DStr "dirichlet"; DStr "periodic"].
Proof.
  apply (@sentinel_expansion IdentityGridEq SpecAxisModule grid_2d 1
           "auto_periodic_dirichlet" "dirichlet").
  reflexivity.
Defined.

Lemma sequence_interpretation_witness :
  @from_data IdentityGridEq SpecAxisModule grid_1d
    (InData (DSeq [DStr "dirichlet"; DStr "neumann"])) 0 9
  = (Ok (mkBoundaries 10 grid_1d
           [mkPair 9 grid_1d 0 false (DSeq [DStr "dirichlet"; DStr "neumann"]) 0]), 11).
Proof.
  rewrite (proj1 (proj2 (@sequence_interpretation IdentityGridEq SpecAxisModule grid_1d
                           [DStr "dirichlet"; DStr "neumann"] 0 9))).
  - reflexivity.
  - discriminate.
  - reflexivity.
  - reflexivity.
Defined.

(** ** Copies *)

Section Copy.

Context {GE : GridEq} {AX : AxisModule}.

(** [[bc.copy() for bc in self]] under the contract of [BoundaryPair.copy]. *)
Lemma comprehension_copy :
  deep_copy_contract ->
  forall items h, exists items' h',
    comprehension pair_copy items h = (Ok items', h') /\
    h <= h' /\
    Forall2 (copy_of h) items' items.
Proof.
  intros Hc. induction items as [|p items IH]; intros h.
  - exists [], h. cbn. repeat split; auto.
  - destruct (Hc p h) as (p' & h1 & Ep & L1 & L2 & Hg & Ha & Hp & He).
    destruct (IH h1) as (items' & h2 & Ei & L3 & HF).
    exists (p' :: items'), h2. cbn [comprehension].
    rewrite (bind_ok _ _ _ _ _ Ep), (bind_ok _ _ _ _ _ Ei).
    split; [reflexivity|]. split; [lia|].
    constructor.
    + unfold copy_of. repeat split; auto.
    + eapply Forall2_impl; [|exact HF].
      intros a b (L & R). split; [lia | exact R].
Qed.

Lemma Forall2_impl_In {A B} (R Q : A -> B -> Prop) l' l :
  (forall a b, In b l -> R a b -> Q a b) -> Forall2 R l' l -> Forall2 Q l' l.
Proof.
  intros H HF. induction HF as [|a b l' l Hab _ IH]; constructor.
  - apply H; [now left | exact Hab].
  - apply IH. intros a' b' Hin. apply H. now right.
Qed.

(** The copies pass the consistency loop that the originals passed. *)
Lemma check_consistency_copies grid h items' items :
  Forall2 (copy_of h) items' items ->
  forall axis,
    check_consistency grid axis items = Ok tt ->
    check_consistency grid axis items' = Ok tt.
Proof.
  induction 1 as [|p' p items' items (_ & Hg & Ha & Hp & _) _ IH]; intros axis E.
  - reflexivity.
  - cbn [check_consistency] in E |- *. rewrite Hg, Ha, Hp.
    destruct (negb (grid_eq (bp_grid p) grid)); [discriminate|].
    destruct (negb (bp_axis p =? axis)); [discriminate|].
    destruct (nth_error (grid_periodic grid) axis) as [gp|]; [|discriminate].
    destruct (negb (Bool.eqb (bp_periodic p) gp)); [discriminate|].
    apply IH, E.
Qed.

Lemma items_eq_copies h items' items :
  Forall2 (copy_of h) items' items -> items_eq items' items = true.
Proof.
  induction 1 as [|p' p items' items (_ & _ & _ & _ & He) _ IH]; cbn [items_eq].
  - reflexivity.
  - now rewrite He, orb_true_r, IH.
Qed.

(** C8: under the contract of [BoundaryPair.copy], the copy of a valid
    collection that lives in the store is a new object, equal to the
    original and not identical to it; each of its pairs is a copy of the
    pair at the same index and a different object; it passes the checks of
    the constructor, refers to the same grid object, and its [periodic] is
    that of the grid, as is the one of the original. *)
Theorem copy_is_equal_and_new b h :
  deep_copy_contract ->
  constructed b ->
  in_store h b ->
  exists c h',
    copy b h = (Ok c, h')
    /\ Boundaries_eq c b = true
    /\ Boundaries_is c b = false
    /\ Forall2 (fun p' p => bp_id p' <> bp_id p /\ pair_eq p' p = true
                            /\ bp_grid p' = bp_grid p /\ bp_axis p' = bp_axis p)
         (b_items c) (b_items b)
    /\ constructed c
    /\ b_grid c = b_grid b
    /\ periodic c = grid_periodic (b_grid b)
    /\ periodic b = grid_periodic (b_grid b).
Proof.
  intros Hc Hb (Hid & Hids).
  destruct (Boundaries_init_inv _ _ _ Hb) as (first & rest & Ei & Eb & El & Ec).
  destruct (comprehension_copy Hc (b_items b) h) as (items' & h1 & Ecomp & L & HF).
  assert (exists first' rest', items' = first' :: rest' /\ bp_grid first' = bp_grid first)
    as (first' & rest' & -> & Hg).
  { rewrite Ei in HF. inversion HF as [|p' p l' l (_ & Hg & _) _]; subst. eauto. }
  assert (Boundaries_init h1 (first' :: rest')
          = Ok {| b_id := h1; b_grid := bp_grid first'; b_items := first' :: rest' |}) as Einit.
  { apply Boundaries_init_intro.
    - rewrite (Forall2_length HF), Hg. exact El.
    - rewrite Hg. apply (check_consistency_copies _ _ _ _ HF). exact Ec. }
  assert (b_grid b = bp_grid first) as Egrid by (rewrite Eb; reflexivity).
  exists {| b_id := h1; b_grid := bp_grid first'; b_items := first' :: rest' |}, (S h1).
  split; [|split; [|split; [|split; [|split; [|split; [|split]]]]]].
  - unfold copy. rewrite (bind_ok _ _ _ _ _ Ecomp), Boundaries_new_run. now rewrite Einit.
  - unfold Boundaries_eq. cbn [b_items b_grid].
    rewrite (items_eq_copies _ _ _ HF), Hg, Egrid. cbn [andb].
    destruct (proj1 (check_consistency_ok _ 0 _) Ec 0 first) as (Hrefl & _);
      [now rewrite Ei|exact Hrefl].
  - unfold Boundaries_is. cbn [b_id]. apply Nat.eqb_neq. lia.
  - cbn [b_items]. eapply Forall2_impl_In; [|exact HF].
    intros p' p Hin (Lp & Hgp & Hap & _ & Hep). specialize (Hids p Hin).
    repeat split; auto. lia.
  - exact Einit.
  - cbn [b_grid]. now rewrite Hg, Egrid.
  - unfold periodic. cbn [b_grid]. now rewrite Hg, Egrid.
  - reflexivity.
Qed.

End Copy.

Lemma data_eqb_refl : forall d, data_eqb d d = true.
Proof.
  fix IH 1. intros [s|items|items|n|]; cbn [data_eqb].
  - apply String.eqb_refl.
  - induction items as [|[k x] items IHitems]; [reflexivity|].
    now rewrite String.eqb_refl, IH, IHitems.
  - induction items as [|x items IHitems]; [reflexivity|].
    now rewrite IH, IHitems.
  - apply Nat.eqb_refl.
  - reflexivity.
Qed.

(** The reference implementation of [copy] keeps the contract. *)
Lemma spec_pair_copy_contract : @deep_copy_contract SpecAxisModule.
Proof.
  intros p h. eexists _, (S h). split; [reflexivity|]. cbn.
  split; [lia|]. split; [lia|]. repeat split.
  unfold spec_pair_eq, grid_is. cbn.
  now rewrite !Nat.eqb_refl, Bool.eqb_reflx, data_eqb_refl.
Qed.

Lemma copy_is_equal_and_new_witness :
  exists c h',
    @copy IdentityGridEq SpecAxisModule bcs_2d 9 = (Ok c, h')
    /\ @Boundaries_eq IdentityGridEq SpecAxisModule c bcs_2d = true
    /\ Boundaries_is c bcs_2d = false
    /\ Forall2 (fun p' p => bp_id p' <> bp_id p /\ spec_pair_eq p' p = true
                            /\ bp_grid p' = bp_grid p /\ bp_axis p' = bp_axis p)
         (b_items c) (b_items bcs_2d)
    /\ @constructed IdentityGridEq c
    /\ b_grid c = grid_2d
    /\ periodic c = [false; true]
    /\ periodic bcs_2d = [false; true].
Proof.
  apply (@copy_is_equal_and_new IdentityGridEq SpecAxisModule bcs_2d 9).
  - exact spec_pair_copy_contract.
  - reflexivity.
  - split; [cbn; lia|]. intros p [<-|[<-|[]]]; cbn; lia.
Defined.

(** ** The composed ghost-cell setter *)

Section Composition.

Variables W Args : Type.

Lemma for_each_map {A B} (f : A -> B) (g : B -> M W unit) xs : forall w,
  for_each g (map f xs) w = for_each (fun x => g (f x)) xs w.
Proof.
  induction xs as [|x xs IH]; intros w; cbn [map for_each]; [reflexivity|].
  apply bind_ext. intros _ w1. apply IH.
Qed.

Lemma for_each_ext {A} (f g : A -> M W unit) xs :
  (forall x w, f x w = g x w) -> forall w, for_each f xs w = for_each g xs w.
Proof.
  intros H. induction xs as [|x xs IH]; intros w; cbn [for_each]; [reflexivity|].
  unfold bind. rewrite H. destruct (g x w) as [[u|e] w1]; [apply IH | reflexivity].
Qed.

(** [chain] returns the routine that runs what was composed so far and then
    the setters of [fs], first to last. *)
Lemma chain_in_order (fs : list (GhostCellSetter W Args)) : forall inner,
  fs <> [] ->
  exists setter,
    chain fs inner = Ok setter /\
    forall args w,
      setter args w = (composed_so_far inner args ;;; call_in_order fs args) w.
Proof.
  induction fs as [|first rest IH]; intros inner Hne; [contradiction|].
  cbn [chain].
  set (wrap := match inner with
               | None => fun args => first args
               | Some inner' => fun args => inner' args ;;; first args
               end).
  assert (forall args w, wrap args w = (composed_so_far inner args ;;; first args) w) as Hwrap.
  { intros args w. subst wrap. destruct inner as [inner'|]; reflexivity. }
  destruct rest as [|second rest].
  - exists wrap. split; [reflexivity|]. intros args w. rewrite Hwrap.
    apply bind_ext. intros _ w1. unfold call_in_order. cbn [for_each].
    now rewrite bind_ret_unit.
  - destruct (IH (Some wrap)) as (setter & Ec & Hs); [discriminate|].
    exists setter. split; [exact Ec|]. intros args w. rewrite Hs.
    cbn [composed_so_far]. unfold bind at 1. rewrite Hwrap.
    unfold call_in_order at 2. cbn [for_each].
    rewrite <- bind_assoc. reflexivity.
Qed.

End Composition.

Lemma for_each_probe (items : list BoundaryPair) : forall log,
  for_each (fun p => probe_setter p tt) items log = (Ok tt, log ++ map bp_axis items).
Proof.
  induction items as [|p items IH]; intros log; cbn [for_each map].
  - now rewrite app_nil_r.
  - unfold bind, probe_setter at 1. rewrite IH, <- app_assoc. reflexivity.
Qed.

Lemma axes_in_order (items : list BoundaryPair) : forall axis,
  (forall i p, nth_error items i = Some p -> bp_axis p = axis + i) ->
  map bp_axis items = seq axis (List.length items).
Proof.
  induction items as [|p items IH]; intros axis H; cbn [map seq List.length].
  - reflexivity.
  - rewrite (H 0 p eq_refl), Nat.add_0_r. f_equal. apply IH.
    intros i q Ei. rewrite Nat.add_succ_comm. apply (H (S i) q Ei).
Qed.

(** The composed routine of a non-empty collection runs the setters that
    the pairs made, first to last. *)
Lemma make_ghost_cell_setter_in_order W Args (GM : GhostModule W Args) (b : Boundaries) :
  b_items b <> [] ->
  exists setter,
    make_ghost_cell_setter b = Ok setter /\
    forall args w,
      setter args w = for_each (fun p => pair_make_ghost_cell_setter p args) (b_items b) w.
Proof.
  intros Hne. unfold make_ghost_cell_setter. cbv zeta.
  destruct (chain_in_order W Args (map pair_make_ghost_cell_setter (b_items b)) None)
    as (setter & Ec & Hs).
  - intros E. apply map_eq_nil in E. contradiction.
  - exists setter. split; [exact Ec|]. intros args w. rewrite Hs.
    cbn [composed_so_far]. unfold call_in_order. apply for_each_map.
Qed.

(** C3: for a valid collection, and pairs whose prepared setter does what
    their [set_ghost_cells] does, the routine returned by
    [make_ghost_cell_setter] has the effect of [set_ghost_cells] on every
    array: it calls the setter of each pair once, in the order of the axes
    0, 1, ..., num_axes-1, as the probe that records the calls shows. *)
Theorem composed_setter_is_loop (GE : GridEq) W Args (GM : GhostModule W Args)
  (b : Boundaries) :
  constructed b ->
  (forall p args w, pair_make_ghost_cell_setter p args w = pair_set_ghost_cells p args w) ->
  exists setter,
    make_ghost_cell_setter b = Ok setter
    /\ (forall args w, setter args w = set_ghost_cells b args w)
    /\ (forall args w,
          setter args w
          = call_in_order (map pair_make_ghost_cell_setter (b_items b)) args w)
    /\ exists probe,
         @make_ghost_cell_setter (list nat) unit ProbeGhostModule b = Ok probe
         /\ forall log, probe tt log = (Ok tt, log ++ seq 0 (num_axes (b_grid b))).
Proof.
  intros Hb Hsame.
  destruct (constructed_items b Hb) as (Hl & Hc).
  assert (b_items b <> []) as Hne.
  { destruct (Boundaries_init_inv _ _ _ Hb) as (first & rest & Ei & _). now rewrite Ei. }
  destruct (make_ghost_cell_setter_in_order W Args GM b Hne) as (setter & Es & Hs).
  exists setter. split; [exact Es|]. split; [|split].
  - intros args w. rewrite Hs. unfold set_ghost_cells.
    apply for_each_ext. intros p w1. apply Hsame.
  - intros args w. rewrite Hs. unfold call_in_order. symmetry. apply for_each_map.
  - destruct (make_ghost_cell_setter_in_order (list nat) unit ProbeGhostModule b Hne)
      as (probe & Ep & Hp).
    exists probe. split; [exact Ep|]. intros log. rewrite Hp.
    cbn [pair_make_ghost_cell_setter ProbeGhostModule]. rewrite for_each_probe.
    rewrite (axes_in_order (b_items b) 0), Hl; [reflexivity|].
    intros i p Ei. apply (Hc i p Ei).
Qed.

Lemma composed_setter_is_loop_witness :
  exists setter,
    @make_ghost_cell_setter (list nat) unit ProbeGhostModule bcs_2d = Ok setter
    /\ (forall args w,
          setter args w = @set_ghost_cells (list nat) unit ProbeGhostModule bcs_2d args w)
    /\ (forall args w,
          setter args w = call_in_order (map probe_setter (b_items bcs_2d)) args w)
    /\ exists probe,
         @make_ghost_cell_setter (list nat) unit ProbeGhostModule bcs_2d = Ok probe
         /\ forall log, probe tt log = (Ok tt, log ++ [0; 1]).
Proof.
  apply (composed_setter_is_loop IdentityGridEq (list nat) unit ProbeGhostModule bcs_2d).
  - reflexivity.
  - reflexivity.
Defined.

(** * Further properties of the class *)

(** ** What the constructor accepts and how it fails *)

Section ConstructorBehaviour.

Context {GE : GridEq}.

(** The constructor returns exactly for the non-empty lists with one pair
    per axis of the first pair's grid that pass the three checks at every
    index; the object then holds the list as given and that grid. *)
Theorem constructor_accepts_exactly boundaries h b h' :
  Boundaries_new boundaries h = (Ok b, h') <->
  exists first rest,
    boundaries = first :: rest /\
    List.length boundaries = num_axes (bp_grid first) /\
    (forall i p, nth_error boundaries i = Some p -> consistent_at (bp_grid first) i p) /\
    b = {| b_id := h; b_grid := bp_grid first; b_items := boundaries |} /\
    h' = S h.
Proof.
  rewrite Boundaries_new_run. split.
  - intros [= E <-].
    destruct (Boundaries_init_inv _ _ _ E) as (first & rest & Eb & -> & El & Ec).
    exists first, rest. split; [exact Eb|]. split; [exact El|].
    split; [|split; reflexivity].
    intros i p Ei. apply (proj1 (check_consistency_ok _ 0 _) Ec i p Ei).
  - intros (first & rest & -> & El & Hc & -> & ->).
    rewrite Boundaries_init_intro; [reflexivity | exact El |].
    apply check_consistency_ok. exact Hc.
Qed.

Lemma skipn_nth_error {A} (l : list A) : forall i x,
  nth_error l i = Some x -> skipn i l = x :: skipn (S i) l.
Proof.
  induction l as [|y l IH]; intros [|i] x E; try discriminate.
  - now injection E as ->.
  - cbn [skipn]. apply (IH i x E).
Qed.

(** The loop passes over a prefix that is consistent. *)
Lemma check_consistency_skip grid : forall i boundaries axis,
  (forall j q, j < i -> nth_error boundaries j = Some q -> consistent_at grid (axis + j) q) ->
  check_consistency grid axis boundaries
  = check_consistency grid (axis + i) (skipn i boundaries).
Proof.
  induction i as [|i IH]; intros boundaries axis H.
  - now rewrite Nat.add_0_r.
  - destruct boundaries as [|b rest]; [reflexivity|].
    destruct (H 0 b (Nat.lt_0_succ i) eq_refl) as (Hg & Ha & Hp).
    rewrite Nat.add_0_r in Ha, Hp.
    cbn [check_consistency skipn].
    rewrite Hg, Ha, Nat.eqb_refl, Hp, Bool.eqb_reflx. cbn [negb].
    rewrite Nat.add_succ_r, <- Nat.add_succ_l. apply IH.
    intros j q Lj Ej. rewrite Nat.add_succ_comm. apply (H (S j) q); [lia | exact Ej].
Qed.

(** For a list with one pair per axis whose pairs before index [i] pass the
    checks, the first check that the pair at [i] fails decides the
    exception: the grid check before the axis check before the periodicity
    check, whose message names the two flags and the axis. *)
Theorem constructor_first_failure first rest h i p :
  List.length (first :: rest) = num_axes (bp_grid first) ->
  (forall j q, j < i -> nth_error (first :: rest) j = Some q ->
     consistent_at (bp_grid first) j q) ->
  nth_error (first :: rest) i = Some p ->
  (grid_eq (bp_grid p) (bp_grid first) = false ->
   Boundaries_new (first :: rest) h
   = (Raise (BCDataError "Boundaries are not defined on the same grid"), S h))
  /\
  (grid_eq (bp_grid p) (bp_grid first) = true -> bp_axis p <> i ->
   Boundaries_new (first :: rest) h
   = (Raise (BCDataError "Boundaries need to be ordered like the respective axes"), S h))
  /\
  (grid_eq (bp_grid p) (bp_grid first) = true -> bp_axis p = i ->
   forall gp, nth_error (grid_periodic (bp_grid first)) i = Some gp ->
   bp_periodic p <> gp ->
   Boundaries_new (first :: rest) h
   = (Raise (PeriodicityError
        ("Periodicity specified in the boundaries conditions is not "
         +++ "compatible with the grid (" +++ str_of_bool (bp_periodic p)
         +++ " != " +++ str_of_bool gp +++ " for axis " +++ str_of_nat i +++ ")")), S h)).
Proof.
  intros El Hpre Ei.
  assert (Boundaries_new (first :: rest) h
          = (match check_consistency (bp_grid first) i (skipn i (first :: rest)) with
             | Raise e => Raise e
             | Ok _ => Ok {| b_id := h; b_grid := bp_grid first; b_items := first :: rest |}
             end, S h)) as ->.
  { rewrite Boundaries_new_run. unfold Boundaries_init. cbv zeta.
    rewrite (proj2 (Nat.eqb_eq _ _) El). cbn [negb].
    now rewrite (check_consistency_skip (bp_grid first) i (first :: rest) 0 Hpre). }
  rewrite (skipn_nth_error _ _ _ Ei). cbn [check_consistency].
  split; [|split].
  - intros Hg. now rewrite Hg.
  - intros Hg Ha. rewrite Hg. cbn [negb].
    now rewrite (proj2 (Nat.eqb_neq _ _) Ha).
  - intros Hg Ha gp Egp Hne. rewrite Hg, Ha, Nat.eqb_refl, Egp. cbn [negb].
    destruct (Bool.eqb (bp_periodic p) gp) eqn:Eb; [|reflexivity].
    apply Bool.eqb_prop in Eb. contradiction.
Qed.

End ConstructorBehaviour.

Lemma constructor_accepts_exactly_witness :
  exists first rest,
    [pair_x; pair_y] = first :: rest /\
    List.length [pair_x; pair_y] = num_axes (bp_grid first) /\
    (forall i p, nth_error [pair_x; pair_y] i = Some p ->
       @consistent_at IdentityGridEq (bp_grid first) i p) /\
    mkBoundaries 9 grid_2d [pair_x; pair_y]
    = {| b_id := 9; b_grid := bp_grid first; b_items := [pair_x; pair_y] |} /\
    10 = 10.
Proof.
  apply (proj1 (@constructor_accepts_exactly IdentityGridEq [pair_x; pair_y] 9
                  (mkBoundaries 9 grid_2d [pair_x; pair_y]) 10)).
  reflexivity.
Defined.

Lemma constructor_first_failure_witness :
  @Boundaries_new IdentityGridEq [pair_x; pair_y_twin] 9
  = (Raise (BCDataError "Boundaries are not defined on the same grid"), 10)
  /\
  @Boundaries_new IdentityGridEq [pair_x; pair_y_wrong] 9
  = (Raise (PeriodicityError
       ("Periodicity specified in the boundaries conditions is not "
        +++ "compatible with the grid (False != True for axis 1)")), 10).
Proof.
  split.
  - apply (proj1 (@constructor_first_failure IdentityGridEq pair_x [pair_y_twin] 9 1
                    pair_y_twin eq_refl
                    ltac:(intros [|[|j]] q L E; [injection E as <-; now repeat split | lia | lia])
                    eq_refl)).
    reflexivity.
  - apply (proj2 (proj2 (@constructor_first_failure IdentityGridEq pair_x [pair_y_wrong] 9 1
                    pair_y_wrong eq_refl
                    ltac:(intros [|[|j]] q L E; [injection E as <-; now repeat split | lia | lia])
                    eq_refl)) eq_refl eq_refl true eq_refl).
    discriminate.
Defined.

(** ** Valid collections, equality and rebuilding *)

Section ValidCollections.

Context {GE : GridEq} {AX : AxisModule}.

(** For a valid collection, the grid has at least one axis, [periodic] has
    an entry for every axis, and the entry of axis [i] is the flag of the
    pair at index [i]. *)
Theorem periodic_agrees_with_pairs b :
  constructed b ->
  0 < num_axes (b_grid b)
  /\ num_axes (b_grid b) <= List.length (periodic b)
  /\ map bp_periodic (b_items b) = firstn (num_axes (b_grid b)) (periodic b)
  /\ forall i p, nth_error (b_items b) i = Some p ->
       nth_error (periodic b) i = Some (bp_periodic p).
Proof.
  intros Hb. destruct (constructed_items b Hb) as (Hl & Hc).
  assert (forall i p, nth_error (b_items b) i = Some p ->
            nth_error (periodic b) i = Some (bp_periodic p)) as Hn
    by (intros i p Ei; apply (Hc i p Ei)).
  destruct (Boundaries_init_inv _ _ _ Hb) as (first & rest & Ei & _).
  split; [rewrite <- Hl, Ei; cbn; lia|].
  assert (num_axes (b_grid b) <= List.length (periodic b)) as Hle.
  { rewrite <- Hl. destruct (b_items b) as [|x l] eqn:E; [cbn; lia|].
    destruct (nth_error (x :: l) (List.length l)) as [q|] eqn:Eq.
    - assert (nth_error (periodic b) (List.length l) <> None) as N
        by (rewrite (Hn _ _ Eq); discriminate).
      apply nth_error_Some in N. cbn [List.length]. lia.
    - apply nth_error_None in Eq. cbn [List.length] in Eq. lia. }
  split; [exact Hle|]. split; [|exact Hn].
  apply nth_error_ext. intros i.
  rewrite nth_error_map.
  destruct (nth_error (b_items b) i) as [p|] eqn:Ep; cbn [option_map].
  - rewrite nth_error_firstn.
    assert (i < num_axes (b_grid b)) as Li
      by (rewrite <- Hl; apply nth_error_Some; congruence).
    rewrite (proj2 (Nat.ltb_lt _ _) Li). symmetry. apply (Hn i p Ep).
  - symmetry. apply nth_error_None. rewrite length_firstn.
    apply nth_error_None in Ep. lia.
Qed.

Lemma items_eq_same xs : items_eq xs xs = true.
Proof.
  induction xs as [|x xs IH]; cbn [items_eq]; [reflexivity|].
  now rewrite Nat.eqb_refl, IH.
Qed.

(** The grid of a valid collection is equal to itself: the first pair
    passed the grid check against its own grid. *)
Lemma constructed_grid_eq b : constructed b -> grid_eq (b_grid b) (b_grid b) = true.
Proof.
  intros Hb. destruct (constructed_items b Hb) as (_ & Hc).
  destruct (Boundaries_init_inv _ _ _ Hb) as (first & rest & Ei & Eb & _).
  assert (b_grid b = bp_grid first) as Eg by (now rewrite Eb).
  destruct (Hc 0 first) as (Hg & _); [now rewrite Ei|].
  now rewrite <- Eg in Hg.
Qed.

(** A valid collection is equal to itself, whatever the comparison of pairs
    answers: the items are identical, and identity comes first. *)
Theorem valid_collection_equals_itself b :
  constructed b -> Boundaries_eq b b = true.
Proof.
  intros Hb. unfold Boundaries_eq.
  now rewrite items_eq_same, (constructed_grid_eq b Hb).
Qed.

(** Passing a valid collection to the constructor builds a new object with
    the same pairs and the same grid object, equal to the original and not
    identical to it when the original lives in the store. *)
Theorem rebuild_from_valid_collection b h :
  constructed b ->
  b_id b < h ->
  exists c,
    Boundaries_new (b_items b) h = (Ok c, S h)
    /\ b_items c = b_items b
    /\ b_grid c = b_grid b
    /\ Boundaries_eq c b = true
    /\ Boundaries_is c b = false.
Proof.
  intros Hb Hid.
  destruct (Boundaries_init_inv _ _ _ Hb) as (first & rest & Ei & Eb & El & Ec).
  assert (b_grid b = bp_grid first) as Eg by (now rewrite Eb).
  exists {| b_id := h; b_grid := bp_grid first; b_items := b_items b |}.
  split.
  - rewrite Boundaries_new_run. rewrite Ei in *. now rewrite Boundaries_init_intro.
  - cbn [b_items b_grid]. split; [reflexivity|]. split; [now rewrite Eg|]. split.
    + unfold Boundaries_eq. cbn [b_items b_grid].
      rewrite items_eq_same, <- Eg. apply (constructed_grid_eq b Hb).
    + unfold Boundaries_is. cbn [b_id]. apply Nat.eqb_neq. lia.
Qed.

Lemma items_eq_Forall2 xs : forall ys,
  items_eq xs ys = true <-> Forall2 same_item xs ys.
Proof.
  induction xs as [|x xs IH]; intros [|y ys]; cbn [items_eq].
  - split; [constructor | reflexivity].
  - split; [discriminate | intros H; inversion H].
  - split; [discriminate | intros H; inversion H].
  - rewrite andb_true_iff, orb_true_iff, Nat.eqb_eq, IH. split.
    + intros (Hx & Hxs). now constructor.
    + intros H. inversion H; subst. now split.
Qed.

(** Two collections are equal exactly when they hold the same number of
    pairs, the pairs at each index are identical or equal, and the grids are
    equal; collections of different lengths are never equal. *)
Theorem equality_of_collections b c :
  (Boundaries_eq b c = true <->
   Forall2 same_item (b_items b) (b_items c) /\ grid_eq (b_grid b) (b_grid c) = true)
  /\ (List.length (b_items b) <> List.length (b_items c) -> Boundaries_eq b c = false).
Proof.
  assert (Boundaries_eq b c = true <->
          Forall2 same_item (b_items b) (b_items c) /\ grid_eq (b_grid b) (b_grid c) = true)
    as Hiff by (unfold Boundaries_eq; now rewrite andb_true_iff, items_eq_Forall2).
  split; [exact Hiff|].
  intros Hne. destruct (Boundaries_eq b c) eqn:E; [|reflexivity].
  exfalso. apply Hne. destruct (proj1 Hiff eq_refl) as (HF & _). apply (Forall2_length HF).
Qed.

(** [check_value_rank] passes exactly when the check of every pair passes,
    and otherwise raises what the first failing pair raises. *)
Theorem check_value_rank_first_failure b rank :
  (check_value_rank b rank = Ok tt <->
   forall p, In p (b_items b) -> pair_check_value_rank p rank = Ok tt)
  /\
  (forall pre p post e,
     b_items b = pre ++ p :: post ->
     (forall q, In q pre -> pair_check_value_rank q rank = Ok tt) ->
     pair_check_value_rank p rank = Raise e ->
     check_value_rank b rank = Raise e).
Proof.
  unfold check_value_rank. split.
  - induction (b_items b) as [|x xs IH]; cbn [check_value_rank_items].
    + split; [intros _ p [] | reflexivity].
    + destruct (pair_check_value_rank x rank) as [[]|e] eqn:Ex.
      * rewrite IH. split.
        -- intros H p [<-|Hp]; [exact Ex | apply (H p Hp)].
        -- intros H p Hp. apply H. now right.
      * split; [discriminate|]. intros H. rewrite (H x) in Ex; [discriminate | now left].
  - intros pre p post e -> Hpre Hp.
    induction pre as [|x pre IH]; cbn [app check_value_rank_items].
    + now rewrite Hp.
    + rewrite (Hpre x) by (now left). apply IH. intros q Hq. apply Hpre. now right.
Qed.

End ValidCollections.

Lemma periodic_agrees_with_pairs_witness :
  0 < num_axes grid_2d
  /\ num_axes grid_2d <= List.length (periodic bcs_2d)
  /\ map bp_periodic (b_items bcs_2d) = firstn (num_axes grid_2d) (periodic bcs_2d)
  /\ forall i p, nth_error (b_items bcs_2d) i = Some p ->
       nth_error (periodic bcs_2d) i = Some (bp_periodic p).
Proof. apply (@periodic_agrees_with_pairs IdentityGridEq bcs_2d). reflexivity. Defined.

Lemma valid_collection_equals_itself_witness :
  @Boundaries_eq IdentityGridEq SpecAxisModule bcs_2d bcs_2d = true.
Proof.
  apply (@valid_collection_equals_itself IdentityGridEq SpecAxisModule bcs_2d). reflexivity.
Defined.

Lemma rebuild_from_valid_collection_witness :
  exists c,
    @Boundaries_new IdentityGridEq (b_items bcs_2d) 9 = (Ok c, 10)
    /\ b_items c = b_items bcs_2d
    /\ b_grid c = b_grid bcs_2d
    /\ @Boundaries_eq IdentityGridEq SpecAxisModule c bcs_2d = true
    /\ Boundaries_is c bcs_2d = false.
Proof.
  apply (@rebuild_from_valid_collection IdentityGridEq SpecAxisModule bcs_2d 9).
  - reflexivity.
  - cbn. lia.
Defined.

Lemma equality_of_collections_witness :
  @Boundaries_eq IdentityGridEq SpecAxisModule bcs_2d
    (mkBoundaries 20 grid_2d [pair_x]) = false.
Proof.
  apply (proj2 (@equality_of_collections IdentityGridEq SpecAxisModule bcs_2d
                  (mkBoundaries 20 grid_2d [pair_x]))).
  discriminate.
Defined.

Lemma check_value_rank_first_failure_witness :
  @check_value_rank SpecAxisModule bcs_2d 1
  = Raise (ForeignError "RankError" "rank of the boundary values does not match").
Proof.
  apply (proj2 (@check_value_rank_first_failure SpecAxisModule bcs_2d 1)
           [] pair_x [pair_y]).
  - reflexivity.
  - intros q [].
  - reflexivity.
Defined.

(** ** More on the normalisation of user data *)

Section Normalisation.

Context {GE : GridEq} {AX : AxisModule}.

Lemma convert_natural_other grid s rank :
  sentinel_kind s = None -> convert_natural grid (DStr s) rank = DStr s.
Proof.
  unfold sentinel_kind, convert_natural, data_eq_str.
  destruct (String.eqb s "natural"); [discriminate|].
  destruct (String.eqb s "auto_periodic_neumann"); [discriminate|].
  destruct (String.eqb s "auto_periodic_dirichlet"); [discriminate|].
  destruct (String.eqb s "auto_periodic_curvature"); [discriminate|].
  reflexivity.
Qed.

(** Only the four sentinel keywords are converted: every other string and
    every value that is not a string passes unchanged, and converting what
    was converted changes nothing, whatever the ranks. *)
Theorem convert_natural_only_sentinels grid d rank :
  ((forall s, d = DStr s -> sentinel_kind s = None) -> convert_natural grid d rank = d)
  /\ (forall rank',
        convert_natural grid (convert_natural grid d rank) rank'
        = convert_natural grid d rank).
Proof.
  split.
  - intros H. destruct d as [s|items|items|n|]; try reflexivity.
    apply convert_natural_other, H. reflexivity.
  - intros rank'. destruct d as [s|items|items|n|]; try reflexivity.
    destruct (sentinel_kind s) as [kind|] eqn:Ek.
    + now rewrite (convert_natural_sentinel grid rank s kind Ek).
    + now rewrite !(convert_natural_other grid s _ Ek).
Qed.

(** The comprehension over [range(n)] with one specification is the
    comprehension over the enumeration of [n] copies of it. *)
Lemma comprehension_repeat grid d rank : forall n start h,
  comprehension (fun i => get_boundary_axis grid i d rank) (seq start n) h
  = comprehension (fun ib => get_boundary_axis grid (fst ib) (snd ib) rank)
      (enumerate_from start (repeat d n)) h.
Proof.
  induction n as [|n IH]; intros start h; cbn [seq repeat enumerate_from comprehension].
  - reflexivity.
  - cbn [fst snd]. apply bind_ext. intros bc s1. unfold bind. now rewrite IH.
Qed.

(** A single string that is no sentinel, or a single dictionary, gives what
    the list with one copy of it per axis gives. *)
Theorem single_specification_broadcast grid rank h :
  (forall s, sentinel_kind s = None ->
     from_data grid (InData (DStr s)) rank h
     = from_data grid (InData (DSeq (repeat (DStr s) (num_axes grid)))) rank h)
  /\
  (forall items,
     from_data grid (InData (DDict items)) rank h
     = from_data grid (InData (DSeq (repeat (DDict items) (num_axes grid)))) rank h).
Proof.
  assert (forall d, convert_natural grid d rank = d ->
            match d with DStr _ | DDict _ => True | _ => False end ->
            from_data grid (InData d) rank h
            = from_data grid (InData (DSeq (repeat d (num_axes grid)))) rank h) as H.
  { intros d Hd Hshape. unfold from_data. cbv zeta. rewrite Hd.
    change (convert_natural grid (DSeq (repeat d (num_axes grid))) rank)
      with (DSeq (repeat d (num_axes grid))).
    assert (make_bcs grid d rank h
            = (bcs <- comprehension (fun i => get_boundary_axis grid i d rank)
                        (seq 0 (num_axes grid)) ;; ret (Some bcs)) h) as E1
      by (destruct d; try contradiction; reflexivity).
    assert (make_bcs grid (DSeq (repeat d (num_axes grid))) rank h
            = (bcs <- comprehension (fun i => get_boundary_axis grid i d rank)
                        (seq 0 (num_axes grid)) ;; ret (Some bcs)) h) as E2.
    { unfold make_bcs. rewrite repeat_length, Nat.eqb_refl. unfold enumerate, bind.
      now rewrite <- (comprehension_repeat grid d rank (num_axes grid) 0 h). }
    unfold bind at 1 2. rewrite E1, E2. unfold bind, ret.
    now destruct (comprehension _ (seq 0 (num_axes grid)) h) as [[l|e] s1]. }
  split.
  - intros s Hs. apply H; [now apply convert_natural_other | exact I].
  - intros items. apply H; [reflexivity | exact I].
Qed.

(** "None of the logic worked" exactly for values without a length and for
    sequences that fit neither the axes nor the shorthand, and then without
    any pair being made; [from_data] then raises the error about the
    unsupported format, with the help text. *)
Theorem unsupported_format_exactly grid d rank h :
  (forall h', make_bcs grid d rank h = (Ok None, h') <-> no_production grid d /\ h' = h)
  /\
  (no_production grid (convert_natural grid d rank) ->
   from_data grid (InData d) rank h
   = (Raise (BCDataError
        ("Unsupported boundary format: `" +++ format_data (convert_natural grid d rank)
         +++ "`. " +++ get_help)), h)).
Proof.
  assert (forall d0 h', make_bcs grid d0 rank h = (Ok None, h') <->
                        no_production grid d0 /\ h' = h) as Hiff.
  { intros d0 h'. unfold make_bcs, no_production.
    assert (forall A (c : M Heap (list A)),
              bind c (fun bcs => ret (Some bcs)) h <> (Ok None, h')) as Hnever.
    { intros A c E. apply bind_inv_ok in E. destruct E as (l & s1 & _ & E). discriminate. }
    destruct d0 as [s|items|items|n|].
    - split; [intros E; now apply Hnever in E | intros ([] & _)].
    - split; [intros E; now apply Hnever in E | intros ([] & _)].
    - destruct (Nat.eqb_spec (List.length items) (num_axes grid)) as [El|El].
      + split; [intros E; now apply Hnever in E | intros ((N & _) & _); contradiction].
      + destruct (Nat.eqb_spec (num_axes grid) 1) as [E1|E1]; cbn [andb].
        * destruct (Nat.eqb_spec (List.length items) 2) as [E2|E2].
          -- split.
             ++ intros E. apply bind_inv_ok in E. destruct E as (l & s1 & _ & E). discriminate.
             ++ intros ((_ & [N|N]) & _); contradiction.
          -- split; [intros [= <-]; auto | intros (_ & ->); reflexivity].
        * split; [intros [= <-]; auto | intros (_ & ->); reflexivity].
    - split; [intros [= <-]; auto | intros (_ & ->); reflexivity].
    - split; [intros [= <-]; auto | intros (_ & ->); reflexivity]. }
  split; [apply Hiff|].
  intros Hno. unfold from_data. cbv zeta.
  rewrite (bind_ok _ _ _ _ _ (proj2 (Hiff _ h) (conj Hno eq_refl))). reflexivity.
Qed.

(** A sequence with one element per axis goes through rule 4a. *)
Lemma from_data_sequence_per_axis grid items rank h :
  List.length items = num_axes grid ->
  from_data grid (InData (DSeq items)) rank h
  = (bcs <- rule_4a grid 0 items rank ;; Boundaries_new bcs) h.
Proof.
  intros El. unfold from_data, convert_natural, data_eq_str. cbn [orb]. cbv zeta.
  unfold make_bcs. rewrite (proj2 (Nat.eqb_eq _ _) El).
  rewrite bind_assoc. unfold enumerate, bind.
  rewrite comprehension_enumerate.
  now destruct (rule_4a grid 0 items rank h) as [[bcs|e] s1].
Qed.

(** On a grid whose [periodic] has one entry per axis, a sentinel keyword
    is read axis by axis: the pair of axis [i] is made from "periodic" or
    from the kind of the sentinel, and the format is never unsupported. *)
Theorem sentinel_reads_every_axis grid rank keyword kind h :
  sentinel_kind keyword = Some kind ->
  List.length (grid_periodic grid) = num_axes grid ->
  from_data grid (InData (DStr keyword)) rank h
  = (bcs <- rule_4a grid 0 (keyword_per_axis kind grid) rank ;; Boundaries_new bcs) h.
Proof.
  intros Hk Hl.
  rewrite <- from_data_sequence_per_axis by (unfold keyword_per_axis; now rewrite length_map).
  unfold from_data. now rewrite (convert_natural_sentinel grid rank keyword kind Hk).
Qed.

End Normalisation.

Lemma convert_natural_only_sentinels_witness :
  convert_natural grid_2d (DStr "Natural") 0 = DStr "Natural".
Proof.
  apply (proj1 (convert_natural_only_sentinels grid_2d (DStr "Natural") 0)).
  intros s [= <-]. reflexivity.
Defined.

Lemma single_specification_broadcast_witness :
  @from_data IdentityGridEq SpecAxisModule grid_1d (InData (DStr "neumann")) 0 9
  = @from_data IdentityGridEq SpecAxisModule grid_1d
      (InData (DSeq (repeat (DStr "neumann") (num_axes grid_1d)))) 0 9.
Proof.
  apply (proj1 (@single_specification_broadcast IdentityGridEq SpecAxisModule grid_1d 0 9)).
  reflexivity.
Defined.

Lemma unsupported_format_exactly_witness :
  @from_data IdentityGridEq SpecAxisModule grid_2d (InData (DNum 3)) 0 9
  = (Raise (BCDataError
       ("Unsupported boundary format: `"
        +++ @format_data SpecAxisModule (convert_natural grid_2d (DNum 3) 0)
        +++ "`. " +++ @get_help SpecAxisModule)), 9).
Proof.
  apply (proj2 (@unsupported_format_exactly IdentityGridEq SpecAxisModule grid_2d
                  (DNum 3) 0 9)).
  exact I.
Defined.

Lemma sentinel_reads_every_axis_witness :
  @from_data IdentityGridEq SpecAxisModule grid_2d (InData (DStr "natural")) 0 9
  = (bcs <- @rule_4a SpecAxisModule grid_2d 0 (keyword_per_axis "neumann" grid_2d) 0 ;;
     @Boundaries_new IdentityGridEq bcs) 9.
Proof.
  apply (@sentinel_reads_every_axis IdentityGridEq SpecAxisModule grid_2d 0
           "natural" "neumann" 9).
  - reflexivity.
  - reflexivity.
Defined.

(** ** Collections made from collections *)

Section Producers.

Context {GE : GridEq} {AX : AxisModule} {EX : ExtractModule}.



Lemma comprehension_keeps f :
  keeps_axis f ->
  forall items h items' h',
    comprehension f items h = (Ok items', h') -> Forall2 same_axis items' items.
Proof.
  intros Hf. induction items as [|p items IH]; intros h items' h' E;
    cbn [comprehension] in E.
  - injection E as <- _. constructor.
  - apply bind_inv_ok in E. destruct E as (p' & h1 & Ep & E).
    apply bind_inv_ok in E. destruct E as (l & h2 & El & R).
    injection R as <- _. constructor; [apply (Hf _ _ _ _ Ep) | apply (IH _ _ _ El)].
Qed.

Lemma check_consistency_same_axis grid items' items :
  Forall2 same_axis items' items ->
  forall axis,
    check_consistency grid axis items = Ok tt ->
    check_consistency grid axis items' = Ok tt.
Proof.
  induction 1 as [|p' p items' items (Hg & Ha & Hp) _ IH]; intros axis E.
  - reflexivity.
  - cbn [check_consistency] in E |- *. rewrite Hg, Ha, Hp.
    destruct (negb (grid_eq (bp_grid p) grid)); [discriminate|].
    destruct (negb (bp_axis p =? axis)); [discriminate|].
    destruct (nth_error (grid_periodic grid) axis) as [gp|]; [|discriminate].
    destruct (negb (Bool.eqb (bp_periodic p) gp)); [discriminate|].
    apply IH, E.
Qed.

(** When the extraction of a component keeps the axis of a pair, the
    component of a valid collection is, once every pair has given its
    component, a new collection of these components on the same grid object,
    one per axis; when a pair raises, so does [extract_component], and no
    collection is made. *)
Theorem extract_component_keeps_grid b indices h :
  constructed b ->
  keeps_axis (fun p => pair_extract_component p indices) ->
  (forall items' h1,
     comprehension (fun p => pair_extract_component p indices) (b_items b) h
     = (Ok items', h1) ->
     extract_component b indices h
     = (Ok {| b_id := h1; b_grid := b_grid b; b_items := items' |}, S h1)
     /\ List.length items' = num_axes (b_grid b)
     /\ Forall2 same_axis items' (b_items b))
  /\
  (forall e h1,
     comprehension (fun p => pair_extract_component p indices) (b_items b) h
     = (Raise e, h1) ->
     extract_component b indices h = (Raise e, h1)).
Proof.
  intros Hb Hk. split.
  - intros items' h1 Ec.
    pose proof (comprehension_keeps _ Hk _ _ _ _ Ec) as HF.
    destruct (Boundaries_init_inv _ _ _ Hb) as (first & rest & Ei & Eb & El & Ecc).
    assert (b_grid b = bp_grid first) as Eg by (now rewrite Eb).
    assert (exists first' rest', items' = first' :: rest' /\ bp_grid first' = bp_grid first)
      as (first' & rest' & E' & Hg).
    { rewrite Ei in HF. inversion HF as [|p' p l' l (Hg & _) _]; subst. eauto. }
    split; [|split; [|exact HF]].
    + unfold extract_component. rewrite (bind_ok _ _ _ _ _ Ec), Boundaries_new_run.
      rewrite E', Boundaries_init_intro.
      * now rewrite Hg, Eg.
      * rewrite <- E', (Forall2_length HF), Hg. exact El.
      * rewrite <- E', Hg. apply (check_consistency_same_axis _ _ _ HF). exact Ecc.
    + rewrite (Forall2_length HF), Eg. exact El.
  - intros e h1 Ec. unfold extract_component. now rewrite (bind_raise _ _ _ _ _ Ec).
Qed.

End Producers.


Lemma spec_extract_keeps_axis indices :
  keeps_axis (fun p => spec_pair_extract_component p indices).
Proof.
  intros p h p' h'. unfold spec_pair_extract_component.
  destruct (List.length indices <=? bp_rank p); [|discriminate].
  intros [= <- _]. repeat split.
Qed.

Lemma extract_component_keeps_grid_witness :
  @extract_component IdentityGridEq SpecExtractModule bcs_vec [0] 9
  = (Ok (mkBoundaries 11 grid_2d
           [mkPair 9 grid_2d 0 false (DStr "dirichlet") 0;
            mkPair 10 grid_2d 1 true (DStr "periodic") 0]), 12)
  /\ @extract_component IdentityGridEq SpecExtractModule bcs_2d [0] 9
     = (Raise (IndexError "too many indices"), 9).
Proof.
  split.
  - apply (proj1 (@extract_component_keeps_grid IdentityGridEq SpecExtractModule
                    bcs_vec [0] 9 eq_refl (spec_extract_keeps_axis [0]))).
    reflexivity.
  - apply (proj2 (@extract_component_keeps_grid IdentityGridEq SpecExtractModule
                    bcs_2d [0] 9 eq_refl (spec_extract_keeps_axis [0]))).
    reflexivity.
Defined.

(** ** More on the ghost-cell setters *)

Section Setters.

Variables W Args : Type.

Context {GM : GhostModule W Args}.

Lemma bind_ext_l {S A B} (m m' : M S A) (k : A -> M S B) s :
  m s = m' s -> bind m k s = bind m' k s.
Proof. intros E. unfold bind. now rewrite E. Qed.

Lemma for_each_app {A} (f : A -> M W unit) xs ys : forall w,
  for_each f (xs ++ ys) w = (for_each f xs ;;; for_each f ys) w.
Proof.
  induction xs as [|x xs IH]; intros w; cbn [app for_each].
  - reflexivity.
  - rewrite bind_assoc. apply bind_ext. intros _ w1. apply IH.
Qed.

(** A loop ends at the first element on which the body raises, in the
    state that this call left. *)
Lemma for_each_stops {A} (f : A -> M W unit) pre x post w w1 e w2 :
  for_each f pre w = (Ok tt, w1) ->
  f x w1 = (Raise e, w2) ->
  for_each f (pre ++ x :: post) w = (Raise e, w2).
Proof.
  intros Epre Ex. rewrite for_each_app, (bind_ok _ _ _ _ _ Epre).
  cbn [for_each]. now rewrite (bind_raise _ _ _ _ _ Ex).
Qed.

(** [make_ghost_cell_setter] returns a routine exactly for a collection
    with at least one pair; on an empty one it raises [IndexError], while
    [set_ghost_cells] does nothing. *)
Theorem setter_needs_a_pair (b : Boundaries) :
  ((exists setter, make_ghost_cell_setter b = Ok setter) <-> b_items b <> [])
  /\
  (b_items b = [] ->
   make_ghost_cell_setter b = Raise (IndexError "tuple index out of range")
   /\ forall args w, set_ghost_cells b args w = (Ok tt, w)).
Proof.
  assert (b_items b = [] ->
          make_ghost_cell_setter b = Raise (IndexError "tuple index out of range")
          /\ forall args w, set_ghost_cells b args w = (Ok tt, w)) as Hempty.
  { intros E. unfold make_ghost_cell_setter, set_ghost_cells. rewrite E. now split. }
  split; [|exact Hempty]. split.
  - intros (setter & Es) E. destruct (Hempty E) as (Er & _). congruence.
  - intros Hne. destruct (make_ghost_cell_setter_in_order W Args GM b Hne) as (setter & Es & _).
    now exists setter.
Qed.

(** When the setter of a pair raises after the setters of the pairs before
    it have returned, the composed routine and [set_ghost_cells] raise the
    same exception and leave the array as that setter left it: the setters of
    the later axes are not called. *)
Theorem setters_stop_at_first_error (b : Boundaries) pre p post args w w1 e w2 :
  b_items b = pre ++ p :: post ->
  (for_each (fun q => pair_make_ghost_cell_setter q args) pre w = (Ok tt, w1) ->
   pair_make_ghost_cell_setter p args w1 = (Raise e, w2) ->
   exists setter,
     make_ghost_cell_setter b = Ok setter /\ setter args w = (Raise e, w2))
  /\
  (for_each (fun q => pair_set_ghost_cells q args) pre w = (Ok tt, w1) ->
   pair_set_ghost_cells p args w1 = (Raise e, w2) ->
   set_ghost_cells b args w = (Raise e, w2)).
Proof.
  intros Ei. split.
  - intros Epre Ep.
    destruct (make_ghost_cell_setter_in_order W Args GM b) as (setter & Es & Hs).
    { rewrite Ei. now destruct pre. }
    exists setter. split; [exact Es|]. rewrite Hs, Ei.
    apply (for_each_stops _ _ _ _ _ _ _ _ Epre Ep).
  - intros Epre Ep. unfold set_ghost_cells. rewrite Ei.
    apply (for_each_stops _ _ _ _ _ _ _ _ Epre Ep).
Qed.

(** Composing the setters of a concatenation is composing the first part
    and then the second part around it: [chain] may be entered with what was
    composed so far. *)
Theorem chain_concatenation (fs gs : list (GhostCellSetter W Args)) inner :
  fs <> [] -> gs <> [] ->
  exists f_all f_first f_then,
    chain (fs ++ gs) inner = Ok f_all
    /\ chain fs inner = Ok f_first
    /\ chain gs (Some f_first) = Ok f_then
    /\ forall args w, f_all args w = f_then args w.
Proof.
  intros Hf Hg.
  destruct (chain_in_order W Args (fs ++ gs) inner) as (f_all & Ea & Ha).
  { intros E. apply app_eq_nil in E. now destruct E. }
  destruct (chain_in_order W Args fs inner Hf) as (f_first & Eb & Hb).
  destruct (chain_in_order W Args gs (Some f_first) Hg) as (f_then & Ec & Hc).
  exists f_all, f_first, f_then. repeat split; auto.
  intros args w. rewrite Ha, Hc. cbn [composed_so_far].
  rewrite (bind_ext_l _ _ _ _ (Hb args w)), bind_assoc.
  apply bind_ext. intros _ w1. unfold call_in_order. apply for_each_app.
Qed.

End Setters.

Lemma setter_needs_a_pair_witness :
  @make_ghost_cell_setter (list nat) unit ProbeGhostModule (mkBoundaries 20 grid_2d [])
  = Raise (IndexError "tuple index out of range")
  /\ forall args w,
       @set_ghost_cells (list nat) unit ProbeGhostModule (mkBoundaries 20 grid_2d []) args w
       = (Ok tt, w).
Proof.
  apply (proj2 (@setter_needs_a_pair (list nat) unit ProbeGhostModule
                  (mkBoundaries 20 grid_2d []))).
  reflexivity.
Defined.

Lemma setters_stop_at_first_error_witness :
  @set_ghost_cells (list nat) unit StrictGhostModule
    (mkBoundaries 20 grid_2d [pair_x; pair_y; pair_x]) tt []
  = (Raise (ForeignError "ValueError" "periodic axis"), [0; 1]).
Proof.
  apply (proj2 (@setters_stop_at_first_error (list nat) unit StrictGhostModule
                  (mkBoundaries 20 grid_2d [pair_x; pair_y; pair_x])
                  [pair_x] pair_y [pair_x] tt [] [0]
                  (ForeignError "ValueError" "periodic axis") [0; 1] eq_refl)).
  - reflexivity.
  - reflexivity.
Defined.

Lemma chain_concatenation_witness :
  exists f_all f_first f_then,
    chain ([probe_setter pair_x] ++ [probe_setter pair_y]) None = Ok f_all
    /\ chain [probe_setter pair_x] None = Ok f_first
    /\ chain [probe_setter pair_y] (Some f_first) = Ok f_then
    /\ forall args w, f_all args w = f_then args w.
Proof.
  apply (@chain_concatenation (list nat) unit [probe_setter pair_x] [probe_setter pair_y] None);
    discriminate.
Defined.
